(** * OCCI storage backends of occi-os: a shallow embedding

    The module [occi_os_api/backends/storage.py] adapts OCCI storage
    resources and storage links to the volume API of the cloud platform.
    Its handlers return nothing: they mutate the entity they are given,
    call the platform through [nova_glue], and raise.  The embedding keeps
    that shape: a handler is a computation over the mutated object and the
    world (platform state, log of glue calls), and a raised exception leaves
    the mutations made so far in place. *)

From stdpp Require Import gmap strings list pretty.
From Stdlib Require Import ZArith.

Local Open Scope string_scope.

(** ** Exceptions and results *)

(** The exceptions the handlers raise or see.  [GlueError] stands for any
    failure raised by a collaborator that is none of the others. *)
Inductive Exn : Type :=
| AttributeError (msg : string)
| HTTPError (code : Z) (msg : string)
| KeyError (key : string)
| GlueError (what : string).

Inductive result (A : Type) : Type :=
| Ok (a : A)
| Raise (e : Exn).
Arguments Ok {A} a.
Arguments Raise {A} e.

(** ** OCCI data *)

(** Modelled from the spec: the actions of a storage resource, declared in
    [occi.extensions.infrastructure] (pyssf, not part of this module).
    [FOREIGN] is an action object of any other kind. *)
Inductive Action : Type :=
| ONLINE | OFFLINE | BACKUP | SNAPSHOT | RESIZE
| FOREIGN (term : string).

#[global] Instance Action_eq_dec : EqDecision Action.
Proof. solve_decision. Defined.

(** A kind of [occi.extensions.infrastructure]; only its location is read. *)
Record Kind : Type := { location : string }.

(** An OCCI entity as the handlers use it: the attribute dictionary, the
    identifier and the list of allowed actions.  Attribute values are
    strings, as the OCCI rendering delivers them. *)
Record Entity : Type := {
  attributes : gmap string string;
  identifier : string;
  actions : list Action
}.

(** A link, with the two entities it connects. *)
Record Link : Type := {
  link_attributes : gmap string string;
  link_identifier : string;
  source : Entity;
  target : Entity
}.

(** ** The platform, seen through [nova_glue] *)

(** The tenant and authentication bundle [extras['nova_ctx']]. *)
Definition RequestContext : Type := string.

(** The volume record of the platform.  The id is a string, so that
    [str(vol_id)] is [vol_id] and the identifier can be built from it. *)
Record Volume : Type := {
  vol_id : string;
  vol_display_name : string;
  vol_size : Z;
  vol_status : string
}.

(** One entry of the log for each call into [nova_glue.storage] or
    [nova_glue.vm]. *)
Inductive Call : Type :=
| create_storage_call (sz name : string) (context : RequestContext)
| get_storage_call (uid : string) (context : RequestContext)
| delete_storage_instance_call (uid : string) (context : RequestContext)
| snapshot_storage_instance_call (uid name description : string)
    (context : RequestContext)
| attach_volume_call (instance_id volume_id : string)
    (mount_point : option string) (context : RequestContext)
| detach_volume_call (instance_id : string) (volume : Volume)
    (context : RequestContext).

(** The functions of [nova_glue] the backends call, over a platform state
    [P].  Each one answers or raises, and moves the platform on. *)
Class NovaGlue (P : Type) : Type := {
  create_storage :
    string -> string -> RequestContext -> P -> result Volume * P;
  get_storage : string -> RequestContext -> P -> result Volume * P;
  delete_storage_instance :
    string -> RequestContext -> P -> result unit * P;
  snapshot_storage_instance :
    string -> string -> string -> RequestContext -> P -> result unit * P;
  attach_volume :
    string -> string -> option string -> RequestContext -> P ->
    result string * P;
  detach_volume :
    string -> Volume -> RequestContext -> P -> result unit * P
}.

(** Python's [str(float(n))] on the size the platform reports: the text of
    the nearest double, or the overflow error. *)
Class Builtins : Type := {
  str_float : Z -> result string
}.

(** The registry of the OCCI runtime: a lookup answers or raises. *)
Record Registry : Type := {
  get_resource : string -> RequestContext -> result unit
}.

Record Extras : Type := {
  nova_ctx : RequestContext;
  registry : Registry
}.

(** ** Calendar dates *)

Record date : Type := { year : nat; month : nat; day : nat }.

Definition digit (n : nat) : Ascii.ascii :=
  Ascii.ascii_of_nat (48 + n mod 10).

(** The decimal digits of [n], zero-padded to [width] places. *)
Fixpoint zfill (width n : nat) : string :=
  match width with
  | O => ""
  | S w => zfill w (n / 10) +:+ String (digit n) ""
  end.

(** [date.isoformat()]: YYYY-MM-DD. *)
Definition isoformat (d : date) : string :=
  zfill 4 (year d) +:+ "-" +:+ zfill 2 (month d) +:+ "-" +:+ zfill 2 (day d).

(** ** The world and the handler monad *)

(** What a handler reaches besides the object it mutates: the platform, the
    log of the glue calls made so far, the identifier [uuid.uuid4()] yields
    on this call and the date [date.today()] reports. *)
Record World (P : Type) : Type := {
  nova : P;
  trace : list Call;
  uuid4 : string;
  today : date
}.
Arguments nova {P} w.
Arguments trace {P} w.
Arguments uuid4 {P} w.
Arguments today {P} w.

(** A handler over a mutable object of type [X]. *)
Definition M (P X A : Type) : Type := X -> World P -> result A * X * World P.

#[global] Instance M_ret {P X} : MRet (M P X) :=
  fun A a x w => (Ok a, x, w).

#[global] Instance M_bind {P X} : MBind (M P X) :=
  fun A B f m x w =>
    match m x w with
    | (Ok a, x', w') => f a x' w'
    | (Raise e, x', w') => (Raise e, x', w')
    end.

Definition raise {P X A} (e : Exn) : M P X A :=
  fun x w => (Raise e, x, w).

Definition get {P X} : M P X X :=
  fun x w => (Ok x, x, w).

Definition modify {P X} (f : X -> X) : M P X unit :=
  fun x w => (Ok tt, f x, w).

Definition ask {P X A} (f : World P -> A) : M P X A :=
  fun x w => (Ok (f w), x, w).

(** The world after the glue call [c] has moved the platform to [p]. *)
Definition logged {P} (c : Call) (p : P) (w : World P) : World P :=
  {| nova := p; trace := trace w ++ [c];
     uuid4 := uuid4 w; today := today w |}.

(** A glue call: answered by the platform, and logged. *)
Definition glue {P X A} (c : Call) (f : P -> result A * P) : M P X A :=
  fun x w => let '(r, p) := f (nova w) in (r, x, logged c p w).

(** A pure computation that may raise. *)
Definition lift {P X A} (r : result A) : M P X A :=
  fun x w => (r, x, w).

(** Assignments to the fields of an entity and of a link. *)
Definition set_attribute (k v : string) (e : Entity) : Entity :=
  {| attributes := <[k := v]> (attributes e);
     identifier := identifier e; actions := actions e |}.

Definition set_identifier (i : string) (e : Entity) : Entity :=
  {| attributes := attributes e; identifier := i; actions := actions e |}.

Definition set_actions (a : list Action) (e : Entity) : Entity :=
  {| attributes := attributes e; identifier := identifier e; actions := a |}.

Definition set_link_attribute (k v : string) (l : Link) : Link :=
  {| link_attributes := <[k := v]> (link_attributes l);
     link_identifier := link_identifier l;
     source := source l; target := target l |}.

Definition set_link_identifier (i : string) (l : Link) : Link :=
  {| link_attributes := link_attributes l; link_identifier := i;
     source := source l; target := target l |}.

(** [d[k]] on a dictionary: the value, or [KeyError]. *)
Definition getitem {P X} (d : gmap string string) (k : string)
  : M P X string :=
  match d !! k with
  | Some v => mret v
  | None => raise (KeyError k)
  end.

(** [k in d] on a dictionary. *)
Definition contains (d : gmap string string) (k : string) : bool :=
  bool_decide (is_Some (d !! k)).

(** Python's [a and b]: [b] is evaluated only when [a] holds. *)
Definition and_then {P X} (a : bool) (b : M P X bool) : M P X bool :=
  if a then b else mret false.

(** [if c: body] with no else branch. *)
Definition when {P X} (c : bool) (body : M P X unit) : M P X unit :=
  if c then body else mret tt.

(** ** The glue calls, logged *)

Section Glue.
Context {P : Type} `{NovaGlue P} {X : Type}.

Definition storage_create_storage (sz name : string) (ctx : RequestContext)
  : M P X Volume :=
  glue (create_storage_call sz name ctx) (create_storage sz name ctx).

Definition storage_get_storage (uid : string) (ctx : RequestContext)
  : M P X Volume :=
  glue (get_storage_call uid ctx) (get_storage uid ctx).

Definition storage_delete_storage_instance (uid : string)
  (ctx : RequestContext) : M P X unit :=
  glue (delete_storage_instance_call uid ctx)
       (delete_storage_instance uid ctx).

Definition storage_snapshot_storage_instance
  (uid name description : string) (ctx : RequestContext) : M P X unit :=
  glue (snapshot_storage_instance_call uid name description ctx)
       (snapshot_storage_instance uid name description ctx).

Definition vm_attach_volume (instance_id volume_id : string)
  (mount_point : option string) (ctx : RequestContext) : M P X string :=
  glue (attach_volume_call instance_id volume_id mount_point ctx)
       (attach_volume instance_id volume_id mount_point ctx).

Definition vm_detach_volume (instance_id : string) (volume : Volume)
  (ctx : RequestContext) : M P X unit :=
  glue (detach_volume_call instance_id volume ctx)
       (detach_volume instance_id volume ctx).

End Glue.

(** ** StorageBackend: the handlers of a storage resource *)

Module StorageBackend.
Section Handlers.
Context {P : Type} `{NovaGlue P} `{Builtins}.
Variable STORAGE : Kind.

(** Creates a new volume. *)
Definition create (extras : Extras) : M P Entity unit :=
  let context := nova_ctx extras in
  entity ← get;
  if negb (contains (attributes entity) "occi.storage.size")
  then raise (AttributeError "size attribute not found!")
  else
    sz ← getitem (attributes entity) "occi.storage.size";
    name ← (if negb (contains (attributes entity) "occi.core.title")
             then ask uuid4
             else getitem (attributes entity) "occi.core.title");
    new_volume ← storage_create_storage sz name context;
    let vid := vol_id new_volume in
    new_volume ← storage_get_storage vid context;
    if decide (vol_status new_volume = "error")
    then raise (HTTPError 500 "There was an error creating the volume")
    else
      modify (set_attribute "occi.core.id" vid);;
      modify (set_identifier (location STORAGE +:+ vid));;
      when (bool_decide (vol_status new_volume = "available"))
        (modify (set_attribute "occi.storage.state" "active"));;
      modify (set_actions [OFFLINE; BACKUP; SNAPSHOT; RESIZE]).

(** Gets a representation of the storage volume. *)
Definition retrieve (extras : Extras) : M P Entity unit :=
  entity ← get;
  v_id ← getitem (attributes entity) "occi.core.id";
  volume ← storage_get_storage v_id (nova_ctx extras);
  modify (set_attribute "occi.core.title" (vol_display_name volume));;
  sz ← lift (str_float (vol_size volume));
  modify (set_attribute "occi.storage.size" sz);;
  if decide (vol_status volume = "available" ∨ vol_status volume = "in-use")
  then
    modify (set_attribute "occi.storage.state" "online");;
    modify (set_actions [OFFLINE; BACKUP; SNAPSHOT; RESIZE])
  else
    modify (set_attribute "occi.storage.state" "offline");;
    modify (set_actions [ONLINE]).

(** Updates the title and the summary of [old], the mutated object, from
    [new]. *)
Definition update (new : Entity) (extras : Extras) : M P Entity unit :=
  when (bool_decide (0 < size (attributes new)))
    (c ← and_then (contains (attributes new) "occi.core.title")
          (title ← getitem (attributes new) "occi.core.title";
           mret (bool_decide (0 < String.length title)));
     when c
       (title ← getitem (attributes new) "occi.core.title";
        modify (set_attribute "occi.core.title" title));;
     c ← and_then (contains (attributes new) "occi.core.title")
          (summary ← getitem (attributes new) "occi.core.summary";
           mret (bool_decide (0 < String.length summary)));
     when c
       (summary ← getitem (attributes new) "occi.core.summary";
        modify (set_attribute "occi.core.summary" summary))).

(** Deletes the storage resource. *)
Definition delete (extras : Extras) : M P Entity unit :=
  let context := nova_ctx extras in
  entity ← get;
  volume_id ← getitem (attributes entity) "occi.core.id";
  storage_delete_storage_instance volume_id context.

(** Executes an action against the storage resource. *)
Definition action (act : Action) (attrs : gmap string string)
  (extras : Extras) : M P Entity unit :=
  entity ← get;
  if decide (act ∉ actions entity)
  then raise (AttributeError "This action is currently no applicable.")
  else if decide (act ∈ [ONLINE; OFFLINE; BACKUP; RESIZE])
  then mret tt
  else if decide (act = SNAPSHOT)
  then
    volume_id ← getitem (attributes entity) "occi.core.id";
    d ← ask today;
    let name := volume_id +:+ isoformat d in
    description ← (if contains (attributes entity) "occi.core.summary"
                    then getitem (attributes entity) "occi.core.summary"
                    else mret "N/A");
    storage_snapshot_storage_instance volume_id name description
      (nova_ctx extras)
  else mret tt.

End Handlers.
End StorageBackend.

(** ** StorageLinkBackend: the handlers of a storage link *)

Module StorageLinkBackend.
Section Handlers.
Context {P : Type} `{NovaGlue P}.
Variable STORAGELINK : Kind.

(** [try: registry.get_resource(key, extras)], with the two ways out of the
    statement: [except KeyError] and [else]. *)
Definition try_get_resource {X A} (reg : Registry) (key : string)
  (extras : Extras) (on_KeyError on_else : M P X A) : M P X A :=
  match get_resource reg key (nova_ctx extras) with
  | Ok _ => on_else
  | Raise (KeyError _) => on_KeyError
  | Raise e => raise e
  end.

(** Creates a link from a compute instance to a storage volume. *)
Definition create (extras : Extras) : M P Link unit :=
  link ← get;
  let volume_id := default "" (attributes (target link) !! "occi.core.id") in
  let instance_id :=
    default "" (attributes (source link) !! "occi.core.id") in
  let link_id := instance_id +:+ "_" +:+ volume_id in
  modify (set_link_identifier (location STORAGELINK +:+ link_id));;
  modify (set_link_attribute "occi.core.id" link_id);;
  modify (set_link_attribute "occi.storagelink.state" "active");;
  let reg := registry extras in
  try_get_resource reg ("/compute/" +:+ instance_id) extras
    (mret tt)
    (let context := nova_ctx extras in
     link ← get;
     let device_id := link_attributes link !! "occi.storagelink.deviceid" in
     device_name ← vm_attach_volume instance_id volume_id device_id context;
     modify (set_link_attribute "occi.storagelink.deviceid" device_name)).

(** Unlinks the compute from the storage resource. *)
Definition delete (extras : Extras) : M P Link unit :=
  link ← get;
  instance_id ← getitem (attributes (source link)) "occi.core.id";
  volume_id ← getitem (attributes (target link)) "occi.core.id";
  volume ← storage_get_storage volume_id (nova_ctx extras);
  vm_detach_volume instance_id volume (nova_ctx extras).

End Handlers.
End StorageLinkBackend.

(** ** A small platform to run the handlers on *)

Module Demo.

(** A cloud that keeps a table of volumes.  A created volume is reported as
    "creating" by the create call and is stored with the status
    [settles_to]; an attached volume gets the device [next_device]. *)
Record cloud : Type := {
  volumes : gmap string Volume;
  next_id : string;
  settles_to : string;
  next_device : string
}.

Definition add_volume (v : Volume) (c : cloud) : cloud :=
  {| volumes := <[vol_id v := v]> (volumes c); next_id := next_id c;
     settles_to := settles_to c; next_device := next_device c |}.

Definition drop_volume (uid : string) (c : cloud) : cloud :=
  {| volumes := base.delete uid (volumes c); next_id := next_id c;
     settles_to := settles_to c; next_device := next_device c |}.

Definition new_volume (name st : string) (c : cloud) : Volume :=
  {| vol_id := next_id c; vol_display_name := name; vol_size := 1;
     vol_status := st |}.

#[global] Instance cloud_glue : NovaGlue cloud := {|
  create_storage sz name ctx c :=
    (Ok (new_volume name "creating" c),
     add_volume (new_volume name (settles_to c) c) c);
  get_storage uid ctx c :=
    match volumes c !! uid with
    | Some v => (Ok v, c)
    | None => (Raise (GlueError "volume not found"), c)
    end;
  delete_storage_instance uid ctx c := (Ok tt, drop_volume uid c);
  snapshot_storage_instance uid name description ctx c := (Ok tt, c);
  attach_volume instance_id volume_id mount_point ctx c :=
    (Ok (next_device c), c);
  detach_volume instance_id volume ctx c := (Ok tt, c)
|}.

(** [str(float(n))] where the integer is a double, which covers every size
    the demo platform reports. *)
#[global] Instance python : Builtins := {|
  str_float n :=
    if decide (Z.abs n ≤ 2 ^ 53)%Z then Ok (pretty n +:+ ".0")
    else Raise (GlueError "size out of the range of this platform")
|}.

Definition STORAGE : Kind := {| location := "/storage/" |}.
Definition STORAGELINK : Kind := {| location := "/storage/link/" |}.

(** The identifier the demo worlds hand out as [uuid.uuid4()]. *)
Definition fresh : string := "16fd2706-8baf-433b-82eb-8c7fada847da".

Definition world (st : string) : World cloud :=
  {| nova := {| volumes := ∅; next_id := "vol-1"; settles_to := st;
                next_device := "/dev/vdb" |};
     trace := [];
     uuid4 := fresh;
     today := {| year := 2012; month := 3; day := 7 |} |}.

(** A registry that knows the compute resources listed. *)
Definition registry_of (known : list string) : Registry :=
  {| get_resource key ctx :=
       if decide (key ∈ known) then Ok tt else Raise (KeyError key) |}.

Definition extras (known : list string) : Extras :=
  {| nova_ctx := "tenant"; registry := registry_of known |}.

Definition entity_of (a : gmap string string) (acts : list Action)
  : Entity :=
  {| attributes := a; identifier := ""; actions := acts |}.

Definition link_of (a : gmap string string) (src tgt : Entity) : Link :=
  {| link_attributes := a; link_identifier := "";
     source := src; target := tgt |}.


(** The platform of [world st]. *)
Definition cloud0 (st : string) : cloud := nova (world st).

(** An entity that asks for a volume of size 1 and has no title. *)
Definition sized : Entity := entity_of {[ "occi.storage.size" := "1" ]} [].

(** A stored volume with a summary, on which every action is allowed. *)
Definition stored : Entity :=
  entity_of {[ "occi.core.id" := "vol-1"; "occi.core.summary" := "scratch" ]}
    [OFFLINE; BACKUP; SNAPSHOT; RESIZE].

(** A link from the compute resource i1 to the volume v1 that asks for the
    device /dev/vdc. *)
Definition link_i1_v1 : Link :=
  link_of {[ "occi.storagelink.deviceid" := "/dev/vdc" ]}
    (entity_of {[ "occi.core.id" := "i1" ]} [])
    (entity_of {[ "occi.core.id" := "v1" ]} []).

(** An action request that carries no attributes. *)
Definition no_attributes : gmap string string := ∅.

(** A volume in use, and the world whose platform holds it. *)
Definition in_use : Volume :=
  {| vol_id := "vol-1"; vol_display_name := "data"; vol_size := 20;
     vol_status := "in-use" |}.

Definition holding (v : Volume) : World cloud :=
  {| nova := add_volume v (cloud0 "available"); trace := [];
     uuid4 := fresh; today := {| year := 2012; month := 3; day := 7 |} |}.

(** The runs the examples below are about. *)

(** A create whose volume the platform then reports in the error state. *)
Definition create_then_error : result unit * Entity * World cloud :=
  StorageBackend.create STORAGE (extras [])
    (entity_of {[ "occi.storage.size" := "1" ]} []) (world "error").

(** A create on an entity whose title is the empty string. *)
Definition create_empty_title : result unit * Entity * World cloud :=
  StorageBackend.create STORAGE (extras [])
    (entity_of {[ "occi.storage.size" := "1"; "occi.core.title" := "" ]} [])
    (world "available").

(** A create whose volume the platform then reports as still creating,
    and one whose volume it reports as available. *)
Definition create_pending : result unit * Entity * World cloud :=
  StorageBackend.create STORAGE (extras []) sized (world "creating").

Definition create_available : result unit * Entity * World cloud :=
  StorageBackend.create STORAGE (extras []) sized (world "available").

(** A volume that is still being created, and one whose size is beyond
    the doubles. *)
Definition pending : Volume :=
  {| vol_id := "vol-1"; vol_display_name := "data"; vol_size := 20;
     vol_status := "creating" |}.

Definition huge : Volume :=
  {| vol_id := "vol-1"; vol_display_name := "data"; vol_size := 2 ^ 1024;
     vol_status := "available" |}.

(** New entities for update: a summary alone, a title with a summary, and
    a title with an empty summary. *)
Definition summary_only : Entity :=
  entity_of {[ "occi.core.summary" := "notes" ]} [].

Definition title_and_summary : Entity :=
  entity_of {[ "occi.core.title" := "B"; "occi.core.summary" := "T" ]} [].

Definition title_empty_summary : Entity :=
  entity_of {[ "occi.core.title" := "B"; "occi.core.summary" := "" ]} [].

(** An entity that allows the snapshot action and has no id. *)
Definition unidentified : Entity :=
  entity_of {[ "occi.core.title" := "disk" ]} [SNAPSHOT].

(** A link whose source has no id. *)
Definition link_without_source : Link :=
  link_of ∅ (entity_of ∅ []) (entity_of {[ "occi.core.id" := "v1" ]} []).

End Demo.

(** ** What the spec says, in its own words *)

(** The name [create] hands to the platform: the title when the entity has
    one, the fresh identifier otherwise. *)
Definition volume_name {P} (e : Entity) (w : World P) : string :=
  match attributes e !! "occi.core.title" with
  | Some title => title
  | None => uuid4 w
  end.

(** Retrieve, as the spec words it: statuses available and in-use give
    online with the actions offline, backup, snapshot and resize; any other
    status gives offline with the action online only. *)
Definition occi_projection (st : string) : string * list Action :=
  if decide (st = "available") then
    ("online", [OFFLINE; BACKUP; SNAPSHOT; RESIZE])
  else if decide (st = "in-use") then
    ("online", [OFFLINE; BACKUP; SNAPSHOT; RESIZE])
  else ("offline", [ONLINE]).

(** ** A platform that runs out *)

Module Flaky.

(** A platform that answers a given number of calls and fails every call
    after that.  Its state is the number of answers left. *)
Definition answer {A} (a : A) (left_ : nat) : result A * nat :=
  match left_ with
  | O => (Raise (GlueError "service unavailable"), O)
  | S k => (Ok a, k)
  end.

#[global] Instance flaky_glue : NovaGlue nat := {|
  create_storage sz name ctx :=
    answer {| vol_id := "vol-9"; vol_display_name := name; vol_size := 1;
              vol_status := "creating" |};
  get_storage uid ctx :=
    answer {| vol_id := uid; vol_display_name := "data"; vol_size := 1;
              vol_status := "available" |};
  delete_storage_instance uid ctx := answer tt;
  snapshot_storage_instance uid name description ctx := answer tt;
  attach_volume instance_id volume_id mount_point ctx := answer "/dev/vdb";
  detach_volume instance_id volume ctx := answer tt
|}.

(** The world in which the platform has [n] answers left. *)
Definition world (n : nat) : World nat :=
  {| nova := n; trace := []; uuid4 := Demo.fresh;
     today := {| year := 2012; month := 3; day := 7 |} |}.

(** A registry that is out of reach. *)
Definition registry_down : Registry :=
  {| get_resource key ctx := Raise (GlueError "registry unavailable") |}.

Definition extras_down : Extras :=
  {| nova_ctx := "tenant"; registry := registry_down |}.

End Flaky.

(** ** The handlers in closed form *)

(** The entity a successful create leaves, from the id of the new volume
    and the status the platform reports for it. *)
Definition created (STORAGE : Kind) (vid st : string) (e : Entity)
  : Entity :=
  {| attributes :=
       if decide (st = "available")
       then <["occi.storage.state" := "active"]>
              (<["occi.core.id" := vid]> (attributes e))
       else <["occi.core.id" := vid]> (attributes e);
     identifier := location STORAGE +:+ vid;
     actions := [OFFLINE; BACKUP; SNAPSHOT; RESIZE] |}.

(** The entity a successful retrieve leaves, from the volume fetched and
    the text of its size. *)
Definition retrieved (volume : Volume) (sz : string) (e : Entity) : Entity :=
  {| attributes :=
       <["occi.storage.state" := (occi_projection (vol_status volume)).1]>
         (<["occi.storage.size" := sz]>
            (<["occi.core.title" := vol_display_name volume]>
               (attributes e)));
     identifier := identifier e;
     actions := (occi_projection (vol_status volume)).2 |}.

(** The two ids a link handler reads off the ends of the link. *)
Definition instance_id_of (l : Link) : string :=
  default "" (attributes (source l) !! "occi.core.id").

Definition volume_id_of (l : Link) : string :=
  default "" (attributes (target l) !! "occi.core.id").

(** The link once create has given it its id, identifier and state. *)
Definition labelled (STORAGELINK : Kind) (l : Link) : Link :=
  set_link_attribute "occi.storagelink.state" "active"
    (set_link_attribute "occi.core.id"
       (instance_id_of l +:+ "_" +:+ volume_id_of l)
       (set_link_identifier
          (location STORAGELINK +:+ instance_id_of l +:+ "_"
           +:+ volume_id_of l) l)).

(** * Properties *)

(** ** The monad and the dictionary reads *)

Section Monad.
Context {P X : Type}.

Lemma bind_Ok {A B} (m : M P X A) (f : A -> M P X B) x w a x' w' :
  m x w = (Ok a, x', w') -> (m ≫= f) x w = f a x' w'.
Proof. intros E. unfold mbind, M_bind. now rewrite E. Qed.

Lemma bind_Raise {A B} (m : M P X A) (f : A -> M P X B) x w e x' w' :
  m x w = (Raise e, x', w') -> (m ≫= f) x w = (Raise e, x', w').
Proof. intros E. unfold mbind, M_bind. now rewrite E. Qed.

Lemma getitem_Some (d : gmap string string) k v (x : X) (w : World P) :
  d !! k = Some v -> getitem d k x w = (Ok v, x, w).
Proof. intros E. unfold getitem. now rewrite E. Qed.

Lemma getitem_None (d : gmap string string) k (x : X) (w : World P) :
  d !! k = None -> getitem d k x w = (Raise (KeyError k), x, w).
Proof. intros E. unfold getitem. now rewrite E. Qed.

Lemma glue_run {A} (c : Call) (f : P -> result A * P) (x : X) w r p :
  f (nova w) = (r, p) -> glue c f x w = (r, x, logged c p w).
Proof. intros E. unfold glue. now rewrite E. Qed.

End Monad.

Lemma get_run {P X} (x : X) (w : World P) : get x w = (Ok x, x, w).
Proof. reflexivity. Qed.

Lemma modify_run {P X} (f : X -> X) (x : X) (w : World P) :
  modify f x w = (Ok tt, f x, w).
Proof. reflexivity. Qed.

Lemma ask_run {P X A} (f : World P -> A) (x : X) (w : World P) :
  ask f x w = (Ok (f w), x, w).
Proof. reflexivity. Qed.

Lemma ret_run {P X A} (a : A) (x : X) (w : World P) :
  (mret a : M P X A) x w = (Ok a, x, w).
Proof. reflexivity. Qed.

Create HintDb run discriminated.
#[global] Hint Resolve getitem_Some glue_run get_run modify_run ask_run
  ret_run : run.

(** One step of a handler: the first computation of a bind returns. *)
Ltac step := erewrite bind_Ok by (eauto with run).

Lemma contains_Some (d : gmap string string) k v :
  d !! k = Some v -> contains d k = true.
Proof. intros E. apply bool_decide_eq_true. rewrite E. eauto. Qed.

Lemma contains_None (d : gmap string string) k :
  d !! k = None -> contains d k = false.
Proof.
  intros E. apply bool_decide_eq_false. rewrite E. apply is_Some_None.
Qed.

(** ** Dates *)

Lemma length_append (s t : string) :
  String.length (s +:+ t) = String.length s + String.length t.
Proof. induction s as [|c s IH]; simpl; [done | now rewrite IH]. Qed.

Lemma length_zfill (width n : nat) : String.length (zfill width n) = width.
Proof.
  revert n. induction width as [|k IH]; intros n; simpl; [done |].
  rewrite length_append, IH. simpl. lia.
Qed.

(** The ISO form of a date has ten characters, whatever the date. *)
Lemma length_isoformat (d : date) : String.length (isoformat d) = 10.
Proof.
  unfold isoformat. rewrite !length_append, !length_zfill. reflexivity.
Qed.

Example isoformat_7_march_2012 :
  isoformat {| year := 2012; month := 3; day := 7 |} = "2012-03-07".
Proof. reflexivity. Qed.

(** ** StorageBackend.create *)

Section Create.
Context {P : Type} `{NovaGlue P}.
Variable STORAGE : Kind.
Implicit Types (e : Entity) (w : World P) (extras : Extras).

(** C5. A create on an entity without [occi.storage.size] raises the
    attribute error and leaves the world, hence the platform and the log of
    glue calls, and the entity as they were. *)
Theorem create_without_size extras e w :
  attributes e !! "occi.storage.size" = None ->
  StorageBackend.create STORAGE extras e w
  = (Raise (AttributeError "size attribute not found!"), e, w).
Proof.
  intros Hsize. unfold StorageBackend.create.
  rewrite (bind_Ok _ _ e w e e w) by reflexivity.
  now rewrite (contains_None _ _ Hsize).
Qed.

(** The name [create] computes is [volume_name]. *)
Lemma create_name e w :
  (if negb (contains (attributes e) "occi.core.title")
   then ask uuid4
   else getitem (attributes e) "occi.core.title") e w
  = (Ok (volume_name e w), e, w).
Proof.
  unfold volume_name.
  destruct (attributes e !! "occi.core.title") as [t|] eqn:E.
  - rewrite (contains_Some _ _ _ E). simpl. now apply getitem_Some.
  - now rewrite (contains_None _ _ E).
Qed.

(** C1, as the code has it. When the volume fetched again after the create
    call is in the error state, create raises the HTTP error 500 and the
    entity is as it was before the call: the status is checked before
    [occi.core.id] is written. Both glue calls have been made. *)
Theorem create_error_status extras e w sz v p1 v' p2 :
  attributes e !! "occi.storage.size" = Some sz ->
  create_storage sz (volume_name e w) (nova_ctx extras) (nova w)
  = (Ok v, p1) ->
  get_storage (vol_id v) (nova_ctx extras) p1 = (Ok v', p2) ->
  vol_status v' = "error" ->
  StorageBackend.create STORAGE extras e w
  = (Raise (HTTPError 500 "There was an error creating the volume"), e,
     logged (get_storage_call (vol_id v) (nova_ctx extras)) p2
       (logged (create_storage_call sz (volume_name e w) (nova_ctx extras))
          p1 w)).
Proof.
  intros Hsize Hcreate Hget Herr. unfold StorageBackend.create.
  step. rewrite (contains_Some _ _ _ Hsize). cbn [negb].
  step. erewrite bind_Ok by apply create_name.
  unfold storage_create_storage, storage_get_storage.
  step. step. now rewrite decide_True.
Qed.

(** X3. When the volume fetched again is available, create returns
    normally and, besides the id, the identifier and the four actions,
    sets [occi.storage.state] to active. *)
Lemma create_available_status extras e w sz v p1 v' p2 :
  attributes e !! "occi.storage.size" = Some sz ->
  create_storage sz (volume_name e w) (nova_ctx extras) (nova w)
  = (Ok v, p1) ->
  get_storage (vol_id v) (nova_ctx extras) p1 = (Ok v', p2) ->
  vol_status v' = "available" ->
  StorageBackend.create STORAGE extras e w
  = (Ok tt,
     {| attributes :=
          <["occi.storage.state" := "active"]>
            (<["occi.core.id" := vol_id v]> (attributes e));
        identifier := location STORAGE +:+ vol_id v;
        actions := [OFFLINE; BACKUP; SNAPSHOT; RESIZE] |},
     logged (get_storage_call (vol_id v) (nova_ctx extras)) p2
       (logged (create_storage_call sz (volume_name e w) (nova_ctx extras))
          p1 w)).
Proof.
  intros Hsize Hcreate Hget Havail. unfold StorageBackend.create.
  step. rewrite (contains_Some _ _ _ Hsize). cbn [negb].
  step. erewrite bind_Ok by apply create_name.
  unfold storage_create_storage, storage_get_storage.
  step. step. rewrite decide_False by (rewrite Havail; discriminate).
  step. step. rewrite bool_decide_eq_true_2 by assumption.
  unfold when. step. reflexivity.
Qed.

(** C10. When the volume fetched again is neither in the error state nor
    available, create returns normally; it has written [occi.core.id], the
    identifier and the four allowed actions, and nothing else: the entity's
    [occi.storage.state], set or not, is what it was. *)
Theorem create_pending_status extras e w sz v p1 v' p2 :
  attributes e !! "occi.storage.size" = Some sz ->
  create_storage sz (volume_name e w) (nova_ctx extras) (nova w)
  = (Ok v, p1) ->
  get_storage (vol_id v) (nova_ctx extras) p1 = (Ok v', p2) ->
  vol_status v' ≠ "error" ->
  vol_status v' ≠ "available" ->
  ∃ e',
    StorageBackend.create STORAGE extras e w
    = (Ok tt, e',
       logged (get_storage_call (vol_id v) (nova_ctx extras)) p2
         (logged
            (create_storage_call sz (volume_name e w) (nova_ctx extras))
            p1 w))
    ∧ attributes e' = <["occi.core.id" := vol_id v]> (attributes e)
    ∧ identifier e' = location STORAGE +:+ vol_id v
    ∧ actions e' = [OFFLINE; BACKUP; SNAPSHOT; RESIZE]
    ∧ attributes e' !! "occi.storage.state"
      = attributes e !! "occi.storage.state".
Proof.
  intros Hsize Hcreate Hget Herr Havail. eexists.
  split; [| split; [| split; [| split]]].
  - unfold StorageBackend.create.
    step. rewrite (contains_Some _ _ _ Hsize). cbn [negb].
    step. erewrite bind_Ok by apply create_name.
    unfold storage_create_storage, storage_get_storage.
    step. step. rewrite decide_False by assumption.
    step. step. rewrite bool_decide_eq_false_2 by assumption.
    unfold when. step. reflexivity.
  - reflexivity.
  - reflexivity.
  - reflexivity.
  - cbn. now rewrite lookup_insert_ne.
Qed.

(** C4, as the code has it. With the size present, the first thing create
    does to the platform is the create-volume call, with the size and, as
    name, the title whenever the entity has one, empty or not, and the
    fresh identifier otherwise. The only call that may follow is the fetch
    of the new volume. *)
Theorem create_volume_name extras e w sz :
  attributes e !! "occi.storage.size" = Some sz ->
  ∃ rest,
    trace (StorageBackend.create STORAGE extras e w).2
    = (trace w
       ++ create_storage_call sz
            match attributes e !! "occi.core.title" with
            | Some title => title
            | None => uuid4 w
            end (nova_ctx extras) :: rest)%list
    ∧ (rest = [] ∨ ∃ uid, rest = [get_storage_call uid (nova_ctx extras)]).
Proof.
  intros Hsize. fold (volume_name e w). unfold StorageBackend.create.
  step. rewrite (contains_Some _ _ _ Hsize). cbn [negb].
  step. erewrite bind_Ok by apply create_name.
  unfold storage_create_storage, storage_get_storage.
  destruct (create_storage sz (volume_name e w) (nova_ctx extras) (nova w))
    as [[v|ex] p1] eqn:Hcreate.
  - step.
    destruct (get_storage (vol_id v) (nova_ctx extras) p1)
      as [[v'|ex] p2] eqn:Hget.
    + exists [get_storage_call (vol_id v) (nova_ctx extras)].
      split; [| right; eauto]. step.
      destruct (decide (vol_status v' = "error")).
      * cbn. now rewrite <- (assoc_L app).
      * step. step. unfold when.
        destruct (bool_decide (vol_status v' = "available"));
          step; cbn; now rewrite <- (assoc_L app).
    + exists [get_storage_call (vol_id v) (nova_ctx extras)].
      split; [| right; eauto].
      erewrite bind_Raise by (apply glue_run; exact Hget).
      cbn. now rewrite <- (assoc_L app).
  - exists []. split; [| now left].
    erewrite bind_Raise by (apply glue_run; exact Hcreate). reflexivity.
Qed.

End Create.

(** ** StorageBackend.retrieve, update and action *)

Section Storage.
Context {P : Type} `{NovaGlue P} `{Builtins}.
Implicit Types (e : Entity) (w : World P) (extras : Extras).

Lemma occi_projection_online st :
  st = "available" ∨ st = "in-use" ->
  occi_projection st = ("online", [OFFLINE; BACKUP; SNAPSHOT; RESIZE]).
Proof.
  intros [->| ->]; unfold occi_projection.
  - now rewrite decide_True.
  - now rewrite decide_False, decide_True.
Qed.

Lemma occi_projection_offline st :
  ¬ (st = "available" ∨ st = "in-use") ->
  occi_projection st = ("offline", [ONLINE]).
Proof.
  intros Hst. unfold occi_projection.
  rewrite !decide_False; [reflexivity | |]; intros ->; apply Hst; auto.
Qed.

(** C3. A retrieve that reaches the platform and gets a volume back leaves
    [occi.storage.state] and the allowed actions equal to the projection of
    the platform's status, whatever the entity held before: available and
    in-use give online with offline, backup, snapshot and resize; any other
    status gives offline with online alone. *)
Theorem retrieve_projection extras e w v_id volume p sz :
  attributes e !! "occi.core.id" = Some v_id ->
  get_storage v_id (nova_ctx extras) (nova w) = (Ok volume, p) ->
  str_float (vol_size volume) = Ok sz ->
  ∃ e',
    StorageBackend.retrieve extras e w
    = (Ok tt, e', logged (get_storage_call v_id (nova_ctx extras)) p w)
    ∧ attributes e' !! "occi.storage.state"
      = Some (occi_projection (vol_status volume)).1
    ∧ actions e' = (occi_projection (vol_status volume)).2.
Proof.
  intros Hid Hget Hsz. unfold StorageBackend.retrieve.
  unfold storage_get_storage.
  destruct (decide (vol_status volume = "available"
                    ∨ vol_status volume = "in-use")) as [Hs|Hs].
  - rewrite (occi_projection_online _ Hs). eexists. split; [| split].
    + step. step. step. step.
      erewrite bind_Ok by (unfold lift; rewrite Hsz; reflexivity).
      step. rewrite decide_True by assumption. step. reflexivity.
    + cbn. apply lookup_insert_eq.
    + reflexivity.
  - rewrite (occi_projection_offline _ Hs). eexists. split; [| split].
    + step. step. step. step.
      erewrite bind_Ok by (unfold lift; rewrite Hsz; reflexivity).
      step. rewrite decide_False by assumption. step. reflexivity.
    + cbn. apply lookup_insert_eq.
    + reflexivity.
Qed.

(** An update whose new entity has a title of at least one character and
    no summary writes the title and then fails on the read of the summary. *)
Lemma update_title_without_summary extras old new w title :
  attributes new !! "occi.core.title" = Some title ->
  0 < String.length title ->
  attributes new !! "occi.core.summary" = None ->
  StorageBackend.update new extras old w
  = (Raise (KeyError "occi.core.summary"),
     set_attribute "occi.core.title" title old, w).
Proof.
  intros Htitle Hlen Hsummary. unfold StorageBackend.update.
  assert (0 < size (attributes new)) as Hsize.
  { destruct (decide (size (attributes new) = 0)) as [E|E]; [| lia].
    apply map_size_empty_inv in E. rewrite E, lookup_empty in Htitle.
    discriminate. }
  rewrite (bool_decide_eq_true_2 _ Hsize). unfold when at 1.
  rewrite (contains_Some _ _ _ Htitle). unfold and_then.
  erewrite bind_Ok by (step; apply ret_run).
  rewrite (bool_decide_eq_true_2 _ Hlen).
  erewrite bind_Ok by (unfold when; step; apply modify_run).
  erewrite bind_Raise; [reflexivity |].
  erewrite bind_Raise; [reflexivity |]. now apply getitem_None.
Qed.

(** C2. The update of an entity titled A, with summary S, by an entity that
    carries the title B and no summary: the title is written, then the read
    of the new summary raises the key error. *)
Theorem update_title_only extras w :
  StorageBackend.update
    (Demo.entity_of {[ "occi.core.title" := "B" ]} []) extras
    (Demo.entity_of
       {[ "occi.core.title" := "A"; "occi.core.summary" := "S" ]} []) w
  = (Raise (KeyError "occi.core.summary"),
     Demo.entity_of
       {[ "occi.core.title" := "B"; "occi.core.summary" := "S" ]} [],
     w).
Proof.
  rewrite (update_title_without_summary _ _ _ _ "B").
  - unfold set_attribute, Demo.entity_of. cbn.
    now rewrite insert_insert_eq.
  - apply lookup_singleton_eq.
  - cbn. lia.
  - now apply lookup_singleton_ne.
Qed.

(** C6. An action that is not in the entity's list of allowed actions is
    refused with the attribute error; the entity and the world, hence the
    platform and the log of glue calls, are as they were. *)
Theorem action_not_allowed extras e w act attrs :
  act ∉ actions e ->
  StorageBackend.action act attrs extras e w
  = (Raise (AttributeError "This action is currently no applicable."), e, w).
Proof.
  intros Hact. unfold StorageBackend.action.
  step. now rewrite decide_True.
Qed.

(** C7. The snapshot action, when allowed on an entity that has its
    [occi.core.id], makes one glue call and no other: the snapshot call,
    with the volume id, the name made of the volume id followed by the ISO
    form of today's date, and the entity's summary, or N/A when it has
    none, as description. The handler returns what the platform answers
    and leaves the entity alone. *)
Theorem action_snapshot extras e w attrs volume_id :
  SNAPSHOT ∈ actions e ->
  attributes e !! "occi.core.id" = Some volume_id ->
  ∃ r p,
    snapshot_storage_instance volume_id
      (volume_id +:+ isoformat (today w))
      (default "N/A" (attributes e !! "occi.core.summary"))
      (nova_ctx extras) (nova w) = (r, p)
    ∧ StorageBackend.action SNAPSHOT attrs extras e w
      = (r, e,
         logged
           (snapshot_storage_instance_call volume_id
              (volume_id +:+ isoformat (today w))
              (default "N/A" (attributes e !! "occi.core.summary"))
              (nova_ctx extras)) p w)
    ∧ trace (StorageBackend.action SNAPSHOT attrs extras e w).2
      = (trace w
         ++ [snapshot_storage_instance_call volume_id
               (volume_id +:+ isoformat (today w))
               (default "N/A" (attributes e !! "occi.core.summary"))
               (nova_ctx extras)])%list.
Proof.
  intros Hact Hid.
  destruct (snapshot_storage_instance volume_id
              (volume_id +:+ isoformat (today w))
              (default "N/A" (attributes e !! "occi.core.summary"))
              (nova_ctx extras) (nova w)) as [r p] eqn:Hsnap.
  exists r, p. split; [reflexivity |].
  assert (StorageBackend.action SNAPSHOT attrs extras e w
          = (r, e,
             logged
               (snapshot_storage_instance_call volume_id
                  (volume_id +:+ isoformat (today w))
                  (default "N/A" (attributes e !! "occi.core.summary"))
                  (nova_ctx extras)) p w)) as Hrun.
  { unfold StorageBackend.action. step.
    rewrite decide_False by (intros Hn; now apply Hn).
    rewrite decide_False
      by (intros Hin; repeat apply elem_of_cons in Hin as [?|Hin];
          try discriminate; now apply elem_of_nil in Hin).
    rewrite decide_True by reflexivity.
    step. step.
    assert ((if contains (attributes e) "occi.core.summary"
             then getitem (attributes e) "occi.core.summary"
             else mret "N/A") e w
            = (Ok (default "N/A" (attributes e !! "occi.core.summary")),
               e, w)) as Hdesc.
    { destruct (attributes e !! "occi.core.summary") as [d|] eqn:E.
      - rewrite (contains_Some _ _ _ E). now apply getitem_Some.
      - now rewrite (contains_None _ _ E). }
    erewrite bind_Ok by exact Hdesc.
    unfold storage_snapshot_storage_instance. now apply glue_run. }
  split; [exact Hrun |]. now rewrite Hrun.
Qed.

End Storage.

(** ** StorageLinkBackend.create *)

Section StorageLink.
Context {P : Type} `{NovaGlue P}.
Variable STORAGELINK : Kind.
Implicit Types (l : Link) (w : World P) (extras : Extras).

(** C8. A link from the compute resource i1 to the volume v1, when the
    registry does not know the compute resource: create returns normally,
    the link has the id i1_v1, the identifier of the storage link
    collection followed by that id and the state active, and the world is
    untouched, so no attach call was made. *)
Theorem link_create_unregistered extras l w key :
  attributes (source l) !! "occi.core.id" = Some "i1" ->
  attributes (target l) !! "occi.core.id" = Some "v1" ->
  get_resource (registry extras) "/compute/i1" (nova_ctx extras)
  = Raise (KeyError key) ->
  StorageLinkBackend.create STORAGELINK extras l w
  = (Ok tt,
     {| link_attributes :=
          <["occi.storagelink.state" := "active"]>
            (<["occi.core.id" := "i1_v1"]> (link_attributes l));
        link_identifier := location STORAGELINK +:+ "i1_v1";
        source := source l; target := target l |},
     w).
Proof.
  intros Hsrc Htgt Hreg. unfold StorageLinkBackend.create.
  step. rewrite Hsrc, Htgt. cbn [default from_option id].
  step. step. step.
  unfold StorageLinkBackend.try_get_resource.
  change ("/compute/" +:+ "i1") with "/compute/i1". now rewrite Hreg.
Qed.

(** C9. When the registry knows the compute resource and the attach call
    answers with a device name, create returns normally and the link's
    [occi.storagelink.deviceid] is that name, whatever device the link
    asked for, if any. The one glue call is the attach call, made with the
    two ids and the device asked for. *)
Theorem link_create_device extras l w device_name p :
  get_resource (registry extras)
    ("/compute/" +:+ default "" (attributes (source l) !! "occi.core.id"))
    (nova_ctx extras) = Ok tt ->
  attach_volume
    (default "" (attributes (source l) !! "occi.core.id"))
    (default "" (attributes (target l) !! "occi.core.id"))
    (link_attributes l !! "occi.storagelink.deviceid")
    (nova_ctx extras) (nova w) = (Ok device_name, p) ->
  ∃ l',
    StorageLinkBackend.create STORAGELINK extras l w
    = (Ok tt, l',
       logged
         (attach_volume_call
            (default "" (attributes (source l) !! "occi.core.id"))
            (default "" (attributes (target l) !! "occi.core.id"))
            (link_attributes l !! "occi.storagelink.deviceid")
            (nova_ctx extras)) p w)
    ∧ link_attributes l' !! "occi.storagelink.deviceid" = Some device_name.
Proof.
  intros Hreg Hattach. eexists. split.
  - unfold StorageLinkBackend.create.
    step. step. step. step.
    unfold StorageLinkBackend.try_get_resource. rewrite Hreg.
    step. cbn [link_attributes set_link_attribute set_link_identifier].
    rewrite !lookup_insert_ne by done.
    unfold vm_attach_volume. step. reflexivity.
  - cbn. apply lookup_insert_eq.
Qed.

End StorageLink.

(** * The theorems at work on the demo platform *)

Lemma create_without_size_witness :
  attributes (Demo.entity_of {[ "occi.core.title" := "disk" ]} [])
    !! "occi.storage.size" = None
  ∧ StorageBackend.create Demo.STORAGE (Demo.extras [])
      (Demo.entity_of {[ "occi.core.title" := "disk" ]} [])
      (Demo.world "available")
    = (Raise (AttributeError "size attribute not found!"),
       Demo.entity_of {[ "occi.core.title" := "disk" ]} [],
       Demo.world "available").
Proof.
  split; [reflexivity |].
  apply (create_without_size Demo.STORAGE (Demo.extras [])
           (Demo.entity_of {[ "occi.core.title" := "disk" ]} [])
           (Demo.world "available")).
  reflexivity.
Defined.

Lemma create_error_status_witness :
  attributes Demo.sized !! "occi.storage.size" = Some "1"
  ∧ vol_status (Demo.new_volume Demo.fresh "error" (Demo.cloud0 "error"))
    = "error"
  ∧ StorageBackend.create Demo.STORAGE (Demo.extras []) Demo.sized
      (Demo.world "error")
    = (Raise (HTTPError 500 "There was an error creating the volume"),
       Demo.sized,
       logged
         (get_storage_call
            (vol_id
               (Demo.new_volume Demo.fresh "creating" (Demo.cloud0 "error")))
            (nova_ctx (Demo.extras [])))
         (Demo.add_volume
            (Demo.new_volume Demo.fresh "error" (Demo.cloud0 "error"))
            (Demo.cloud0 "error"))
         (logged
            (create_storage_call "1"
               (volume_name Demo.sized (Demo.world "error"))
               (nova_ctx (Demo.extras [])))
            (Demo.add_volume
               (Demo.new_volume Demo.fresh "error" (Demo.cloud0 "error"))
               (Demo.cloud0 "error"))
            (Demo.world "error"))).
Proof.
  split; [reflexivity | split; [reflexivity |]].
  apply (create_error_status Demo.STORAGE (Demo.extras []) Demo.sized
           (Demo.world "error") "1"
           (Demo.new_volume Demo.fresh "creating" (Demo.cloud0 "error"))
           (Demo.add_volume
              (Demo.new_volume Demo.fresh "error" (Demo.cloud0 "error"))
              (Demo.cloud0 "error"))
           (Demo.new_volume Demo.fresh "error" (Demo.cloud0 "error"))
           (Demo.add_volume
              (Demo.new_volume Demo.fresh "error" (Demo.cloud0 "error"))
              (Demo.cloud0 "error")));
    vm_compute; reflexivity.
Defined.

(** C1, as the claim words it, fails on this run: the volume fetched again
    is in the error state, create raises the HTTP error 500 after its two
    glue calls, and the entity has no [occi.core.id]. *)
Lemma create_error_status_id_unset :
  (get_storage "vol-1" "tenant" (nova Demo.create_then_error.2)).1
  = Ok {| vol_id := "vol-1"; vol_display_name := Demo.fresh;
          vol_size := 1; vol_status := "error" |}
  ∧ Demo.create_then_error.1.1
    = Raise (HTTPError 500 "There was an error creating the volume")
  ∧ trace Demo.create_then_error.2
    = [create_storage_call "1" Demo.fresh "tenant";
       get_storage_call "vol-1" "tenant"]
  ∧ attributes Demo.create_then_error.1.2 !! "occi.core.id" = None.
Proof. vm_compute. repeat split. Qed.

(** C4, as the claim words it, fails on this run: the title is present and
    empty, and the name handed to the platform is the empty title, not the
    fresh identifier. *)
Lemma create_empty_title_name :
  uuid4 (Demo.world "available") = Demo.fresh
  ∧ Demo.create_empty_title.1.1 = Ok tt
  ∧ trace Demo.create_empty_title.2
    = [create_storage_call "1" "" "tenant";
       get_storage_call "vol-1" "tenant"].
Proof. vm_compute. repeat split. Qed.

Lemma create_pending_status_witness :
  attributes Demo.sized !! "occi.storage.size" = Some "1"
  ∧ vol_status (Demo.new_volume Demo.fresh "creating" (Demo.cloud0 "creating"))
    = "creating"
  ∧ ∃ e',
      StorageBackend.create Demo.STORAGE (Demo.extras []) Demo.sized
        (Demo.world "creating")
      = (Ok tt, e',
         logged
           (get_storage_call
              (vol_id
                 (Demo.new_volume Demo.fresh "creating"
                    (Demo.cloud0 "creating")))
              (nova_ctx (Demo.extras [])))
           (Demo.add_volume
              (Demo.new_volume Demo.fresh "creating" (Demo.cloud0 "creating"))
              (Demo.cloud0 "creating"))
           (logged
              (create_storage_call "1"
                 (volume_name Demo.sized (Demo.world "creating"))
                 (nova_ctx (Demo.extras [])))
              (Demo.add_volume
                 (Demo.new_volume Demo.fresh "creating"
                    (Demo.cloud0 "creating"))
                 (Demo.cloud0 "creating"))
              (Demo.world "creating")))
      ∧ attributes e'
        = <["occi.core.id" :=
              vol_id
                (Demo.new_volume Demo.fresh "creating"
                   (Demo.cloud0 "creating"))]> (attributes Demo.sized)
      ∧ identifier e'
        = location Demo.STORAGE
          +:+ vol_id
                (Demo.new_volume Demo.fresh "creating"
                   (Demo.cloud0 "creating"))
      ∧ actions e' = [OFFLINE; BACKUP; SNAPSHOT; RESIZE]
      ∧ attributes e' !! "occi.storage.state"
        = attributes Demo.sized !! "occi.storage.state".
Proof.
  split; [reflexivity | split; [reflexivity |]].
  apply (create_pending_status Demo.STORAGE (Demo.extras []) Demo.sized
           (Demo.world "creating") "1"
           (Demo.new_volume Demo.fresh "creating" (Demo.cloud0 "creating"))
           (Demo.add_volume
              (Demo.new_volume Demo.fresh "creating" (Demo.cloud0 "creating"))
              (Demo.cloud0 "creating"))
           (Demo.new_volume Demo.fresh "creating" (Demo.cloud0 "creating"))
           (Demo.add_volume
              (Demo.new_volume Demo.fresh "creating" (Demo.cloud0 "creating"))
              (Demo.cloud0 "creating")));
    vm_compute; first [reflexivity | discriminate].
Defined.

Lemma create_volume_name_witness :
  attributes
    (Demo.entity_of
       {[ "occi.storage.size" := "1"; "occi.core.title" := "disk" ]} [])
    !! "occi.storage.size" = Some "1"
  ∧ ∃ rest,
      trace
        (StorageBackend.create Demo.STORAGE (Demo.extras [])
           (Demo.entity_of
              {[ "occi.storage.size" := "1"; "occi.core.title" := "disk" ]}
              [])
           (Demo.world "available")).2
      = (trace (Demo.world "available")
         ++ create_storage_call "1"
              match
                attributes
                  (Demo.entity_of
                     {[ "occi.storage.size" := "1";
                        "occi.core.title" := "disk" ]} [])
                !! "occi.core.title"
              with
              | Some title => title
              | None => uuid4 (Demo.world "available")
              end (nova_ctx (Demo.extras [])) :: rest)%list
      ∧ (rest = []
         ∨ ∃ uid, rest = [get_storage_call uid (nova_ctx (Demo.extras []))]).
Proof.
  split; [reflexivity |].
  apply (create_volume_name Demo.STORAGE (Demo.extras [])
           (Demo.entity_of
              {[ "occi.storage.size" := "1"; "occi.core.title" := "disk" ]}
              [])
           (Demo.world "available") "1").
  reflexivity.
Defined.

Lemma retrieve_projection_witness :
  attributes Demo.stored !! "occi.core.id" = Some "vol-1"
  ∧ get_storage "vol-1" (nova_ctx (Demo.extras []))
      (nova (Demo.holding Demo.in_use))
    = (Ok Demo.in_use, nova (Demo.holding Demo.in_use))
  ∧ str_float (vol_size Demo.in_use) = Ok "20.0"
  ∧ ∃ e',
      StorageBackend.retrieve (Demo.extras []) Demo.stored
        (Demo.holding Demo.in_use)
      = (Ok tt, e',
         logged (get_storage_call "vol-1" (nova_ctx (Demo.extras [])))
           (nova (Demo.holding Demo.in_use)) (Demo.holding Demo.in_use))
      ∧ attributes e' !! "occi.storage.state"
        = Some (occi_projection (vol_status Demo.in_use)).1
      ∧ actions e' = (occi_projection (vol_status Demo.in_use)).2.
Proof.
  assert (attributes Demo.stored !! "occi.core.id" = Some "vol-1") as Hid
    by reflexivity.
  assert (get_storage "vol-1" (nova_ctx (Demo.extras []))
            (nova (Demo.holding Demo.in_use))
          = (Ok Demo.in_use, nova (Demo.holding Demo.in_use))) as Hget
    by (vm_compute; reflexivity).
  assert (str_float (vol_size Demo.in_use) = Ok "20.0") as Hsz
    by (vm_compute; reflexivity).
  exact (conj Hid (conj Hget (conj Hsz
           (retrieve_projection (Demo.extras []) Demo.stored
              (Demo.holding Demo.in_use) "vol-1" Demo.in_use
              (nova (Demo.holding Demo.in_use)) "20.0" Hid Hget Hsz)))).
Defined.

Lemma action_not_allowed_witness :
  (ONLINE ∉ actions Demo.stored)
  ∧ StorageBackend.action ONLINE Demo.no_attributes (Demo.extras []) Demo.stored
      (Demo.holding Demo.in_use)
    = (Raise (AttributeError "This action is currently no applicable."),
       Demo.stored, Demo.holding Demo.in_use).
Proof.
  assert (ONLINE ∉ actions Demo.stored) as Hact by compute_done.
  exact (conj Hact
           (action_not_allowed (Demo.extras []) Demo.stored
              (Demo.holding Demo.in_use) ONLINE Demo.no_attributes Hact)).
Defined.

Lemma action_snapshot_witness :
  SNAPSHOT ∈ actions Demo.stored
  ∧ attributes Demo.stored !! "occi.core.id" = Some "vol-1"
  ∧ trace
      (StorageBackend.action SNAPSHOT Demo.no_attributes (Demo.extras []) Demo.stored
         (Demo.holding Demo.in_use)).2
    = [snapshot_storage_instance_call "vol-1" "vol-12012-03-07" "scratch"
         "tenant"].
Proof.
  assert (SNAPSHOT ∈ actions Demo.stored) as Hact by compute_done.
  assert (attributes Demo.stored !! "occi.core.id" = Some "vol-1") as Hid
    by reflexivity.
  split; [exact Hact | split; [exact Hid |]].
  destruct (action_snapshot (Demo.extras []) Demo.stored
              (Demo.holding Demo.in_use) Demo.no_attributes "vol-1" Hact Hid)
    as (r & p & _ & _ & Htrace).
  rewrite Htrace. reflexivity.
Defined.

Lemma link_create_unregistered_witness :
  attributes (source Demo.link_i1_v1) !! "occi.core.id" = Some "i1"
  ∧ attributes (target Demo.link_i1_v1) !! "occi.core.id" = Some "v1"
  ∧ get_resource (registry (Demo.extras [])) "/compute/i1"
      (nova_ctx (Demo.extras [])) = Raise (KeyError "/compute/i1")
  ∧ StorageLinkBackend.create Demo.STORAGELINK (Demo.extras [])
      Demo.link_i1_v1 (Demo.world "available")
    = (Ok tt,
       {| link_attributes :=
            <["occi.storagelink.state" := "active"]>
              (<["occi.core.id" := "i1_v1"]>
                 (link_attributes Demo.link_i1_v1));
          link_identifier := location Demo.STORAGELINK +:+ "i1_v1";
          source := source Demo.link_i1_v1;
          target := target Demo.link_i1_v1 |},
       Demo.world "available").
Proof.
  split; [reflexivity | split; [reflexivity | split; [reflexivity |]]].
  apply (link_create_unregistered Demo.STORAGELINK (Demo.extras [])
           Demo.link_i1_v1 (Demo.world "available") "/compute/i1");
    reflexivity.
Defined.

Lemma link_create_device_witness :
  link_attributes Demo.link_i1_v1 !! "occi.storagelink.deviceid"
  = Some "/dev/vdc"
  ∧ ∃ l',
      (StorageLinkBackend.create Demo.STORAGELINK
         (Demo.extras ["/compute/i1"]) Demo.link_i1_v1
         (Demo.world "available")).1
      = (Ok tt, l')
      ∧ link_attributes l' !! "occi.storagelink.deviceid" = Some "/dev/vdb".
Proof.
  split; [reflexivity |].
  destruct (link_create_device Demo.STORAGELINK
              (Demo.extras ["/compute/i1"]) Demo.link_i1_v1
              (Demo.world "available") "/dev/vdb"
              (Demo.cloud0 "available"))
    as (l' & Hrun & Hdev); [vm_compute; reflexivity .. |].
  exists l'. rewrite Hrun. split; [reflexivity | exact Hdev].
Defined.

(** * More on the handlers *)

(** ** Closed forms *)

Section ClosedForms.
Context {P : Type} `{NovaGlue P} `{Builtins}.
Variables STORAGE STORAGELINK : Kind.
Implicit Types (e : Entity) (l : Link) (w : World P) (extras : Extras).

(** Every run of create, by what the entity holds and what the platform
    answers. *)
Lemma create_unfold extras e w :
  StorageBackend.create STORAGE extras e w
  = match attributes e !! "occi.storage.size" with
    | None => (Raise (AttributeError "size attribute not found!"), e, w)
    | Some sz =>
      let c1 :=
        create_storage_call sz (volume_name e w) (nova_ctx extras) in
      match
        create_storage sz (volume_name e w) (nova_ctx extras) (nova w)
      with
      | (Raise ex, p1) => (Raise ex, e, logged c1 p1 w)
      | (Ok v, p1) =>
        let c2 := get_storage_call (vol_id v) (nova_ctx extras) in
        match get_storage (vol_id v) (nova_ctx extras) p1 with
        | (Raise ex, p2) => (Raise ex, e, logged c2 p2 (logged c1 p1 w))
        | (Ok v', p2) =>
          if decide (vol_status v' = "error")
          then (Raise
                  (HTTPError 500 "There was an error creating the volume"),
                e, logged c2 p2 (logged c1 p1 w))
          else (Ok tt, created STORAGE (vol_id v) (vol_status v') e,
                logged c2 p2 (logged c1 p1 w))
        end
      end
    end.
Proof.
  unfold StorageBackend.create. step.
  destruct (attributes e !! "occi.storage.size") as [sz|] eqn:Hsize.
  - rewrite (contains_Some _ _ _ Hsize). cbn [negb].
    step. erewrite bind_Ok by apply create_name.
    unfold storage_create_storage, storage_get_storage. cbv zeta.
    destruct (create_storage sz (volume_name e w) (nova_ctx extras) (nova w))
      as [[v|ex] p1] eqn:Hcreate.
    + step.
      destruct (get_storage (vol_id v) (nova_ctx extras) p1)
        as [[v'|ex] p2] eqn:Hget.
      * step. destruct (decide (vol_status v' = "error")); [reflexivity |].
        step. step. unfold when, created.
        destruct (decide (vol_status v' = "available")) as [Ha|Ha].
        -- rewrite (bool_decide_eq_true_2 _ Ha). step. reflexivity.
        -- rewrite (bool_decide_eq_false_2 _ Ha). step. reflexivity.
      * erewrite bind_Raise by (apply glue_run; exact Hget). reflexivity.
    + erewrite bind_Raise by (apply glue_run; exact Hcreate). reflexivity.
  - now rewrite (contains_None _ _ Hsize).
Qed.

(** Every run of retrieve. *)
Lemma retrieve_unfold extras e w :
  StorageBackend.retrieve extras e w
  = match attributes e !! "occi.core.id" with
    | None => (Raise (KeyError "occi.core.id"), e, w)
    | Some v_id =>
      let c := get_storage_call v_id (nova_ctx extras) in
      match get_storage v_id (nova_ctx extras) (nova w) with
      | (Raise ex, p) => (Raise ex, e, logged c p w)
      | (Ok volume, p) =>
        match str_float (vol_size volume) with
        | Raise ex =>
          (Raise ex,
           set_attribute "occi.core.title" (vol_display_name volume) e,
           logged c p w)
        | Ok sz => (Ok tt, retrieved volume sz e, logged c p w)
        end
      end
    end.
Proof.
  unfold StorageBackend.retrieve. step.
  destruct (attributes e !! "occi.core.id") as [v_id|] eqn:Hid.
  - step. unfold storage_get_storage. cbv zeta.
    destruct (get_storage v_id (nova_ctx extras) (nova w))
      as [[volume|ex] p] eqn:Hget.
    + step. step.
      destruct (str_float (vol_size volume)) as [sz|ex] eqn:Hsz.
      * erewrite bind_Ok by reflexivity.
        step. unfold retrieved.
        destruct (decide (vol_status volume = "available"
                          ∨ vol_status volume = "in-use")) as [Hs|Hs].
        -- rewrite (occi_projection_online _ Hs). step. reflexivity.
        -- rewrite (occi_projection_offline _ Hs). step. reflexivity.
      * erewrite bind_Raise by reflexivity. reflexivity.
    + erewrite bind_Raise by (apply glue_run; exact Hget). reflexivity.
  - erewrite bind_Raise by (now apply getitem_None). reflexivity.
Qed.

(** Every run of update. *)
Lemma update_unfold extras new old w :
  StorageBackend.update new extras old w
  = match attributes new !! "occi.core.title" with
    | None => (Ok tt, old, w)
    | Some title =>
      let old1 :=
        if bool_decide (0 < String.length title)
        then set_attribute "occi.core.title" title old else old in
      match attributes new !! "occi.core.summary" with
      | None => (Raise (KeyError "occi.core.summary"), old1, w)
      | Some summary =>
        (Ok tt,
         if bool_decide (0 < String.length summary)
         then set_attribute "occi.core.summary" summary old1 else old1,
         w)
      end
    end.
Proof.
  unfold StorageBackend.update.
  destruct (attributes new !! "occi.core.title") as [title|] eqn:Htitle.
  - assert (0 < size (attributes new)) as Hsize.
    { destruct (decide (size (attributes new) = 0)) as [E|E]; [| lia].
      apply map_size_empty_inv in E. rewrite E, lookup_empty in Htitle.
      discriminate. }
    rewrite (bool_decide_eq_true_2 _ Hsize). unfold when at 1.
    rewrite (contains_Some _ _ _ Htitle). unfold and_then. cbv zeta.
    erewrite bind_Ok by (step; apply ret_run).
    set (old1 := if bool_decide (0 < String.length title)
                 then set_attribute "occi.core.title" title old else old).
    rewrite (bind_Ok _ _ old w tt old1 w); cycle 1.
    { unfold when, old1. destruct (bool_decide (0 < String.length title)).
      - step. apply modify_run.
      - apply ret_run. }
    destruct (attributes new !! "occi.core.summary") as [summary|]
      eqn:Hsummary.
    + erewrite bind_Ok by (step; apply ret_run).
      unfold when. destruct (bool_decide (0 < String.length summary)).
      * step. reflexivity.
      * reflexivity.
    + erewrite bind_Raise; [reflexivity |].
      erewrite bind_Raise; [reflexivity |]. now apply getitem_None.
  - unfold when at 1. rewrite (contains_None _ _ Htitle). unfold and_then.
    destruct (bool_decide (0 < size (attributes new))); [| reflexivity].
    step. unfold when. step. reflexivity.
Qed.

(** Every run of delete. *)
Lemma delete_unfold extras e w :
  StorageBackend.delete extras e w
  = match attributes e !! "occi.core.id" with
    | None => (Raise (KeyError "occi.core.id"), e, w)
    | Some volume_id =>
      let '(r, p) :=
        delete_storage_instance volume_id (nova_ctx extras) (nova w) in
      (r, e,
       logged (delete_storage_instance_call volume_id (nova_ctx extras)) p w)
    end.
Proof.
  unfold StorageBackend.delete. step.
  destruct (attributes e !! "occi.core.id") as [volume_id|] eqn:Hid.
  - step. reflexivity.
  - erewrite bind_Raise by (now apply getitem_None). reflexivity.
Qed.

(** Every run of action. *)
Lemma action_unfold extras e w act attrs :
  StorageBackend.action act attrs extras e w
  = if decide (act ∈ actions e) then
      if decide (act = SNAPSHOT) then
        match attributes e !! "occi.core.id" with
        | None => (Raise (KeyError "occi.core.id"), e, w)
        | Some volume_id =>
          let name := volume_id +:+ isoformat (today w) in
          let description :=
            default "N/A" (attributes e !! "occi.core.summary") in
          let '(r, p) :=
            snapshot_storage_instance volume_id name description
              (nova_ctx extras) (nova w) in
          (r, e,
           logged
             (snapshot_storage_instance_call volume_id name description
                (nova_ctx extras)) p w)
        end
      else (Ok tt, e, w)
    else
      (Raise (AttributeError "This action is currently no applicable."),
       e, w).
Proof.
  unfold StorageBackend.action. step.
  destruct (decide (act ∈ actions e)) as [Hin|Hin].
  - rewrite decide_False by (intros Hn; now apply Hn).
    destruct (decide (act = SNAPSHOT)) as [->|Hact].
    + rewrite decide_False
        by (intros Hs; repeat apply elem_of_cons in Hs as [?|Hs];
            try discriminate; now apply elem_of_nil in Hs).
      destruct (attributes e !! "occi.core.id") as [volume_id|] eqn:Hid.
      * step. step.
        assert ((if contains (attributes e) "occi.core.summary"
                 then getitem (attributes e) "occi.core.summary"
                 else mret "N/A") e w
                = (Ok (default "N/A" (attributes e !! "occi.core.summary")),
                   e, w)) as Hdesc.
        { destruct (attributes e !! "occi.core.summary") as [d|] eqn:E.
          - rewrite (contains_Some _ _ _ E). now apply getitem_Some.
          - now rewrite (contains_None _ _ E). }
        erewrite bind_Ok by exact Hdesc. reflexivity.
      * erewrite bind_Raise by (now apply getitem_None). reflexivity.
    + destruct (decide (act ∈ [ONLINE; OFFLINE; BACKUP; RESIZE]));
        reflexivity.
  - now rewrite decide_True.
Qed.

(** Every run of the link's create. *)
Lemma link_create_unfold extras l w :
  StorageLinkBackend.create STORAGELINK extras l w
  = match
      get_resource (registry extras) ("/compute/" +:+ instance_id_of l)
        (nova_ctx extras)
    with
    | Ok _ =>
      let device_id := link_attributes l !! "occi.storagelink.deviceid" in
      let c :=
        attach_volume_call (instance_id_of l) (volume_id_of l) device_id
          (nova_ctx extras) in
      match
        attach_volume (instance_id_of l) (volume_id_of l) device_id
          (nova_ctx extras) (nova w)
      with
      | (Ok device_name, p) =>
        (Ok tt,
         set_link_attribute "occi.storagelink.deviceid" device_name
           (labelled STORAGELINK l),
         logged c p w)
      | (Raise ex, p) => (Raise ex, labelled STORAGELINK l, logged c p w)
      end
    | Raise (KeyError _) => (Ok tt, labelled STORAGELINK l, w)
    | Raise ex => (Raise ex, labelled STORAGELINK l, w)
    end.
Proof.
  unfold StorageLinkBackend.create. step. step. step. step.
  unfold StorageLinkBackend.try_get_resource.
  fold (instance_id_of l). fold (volume_id_of l).
  fold (labelled STORAGELINK l).
  destruct (get_resource (registry extras) ("/compute/" +:+ instance_id_of l)
              (nova_ctx extras)) as [[]|ex].
  - step. unfold labelled at 1.
    cbn [link_attributes set_link_attribute set_link_identifier].
    rewrite !lookup_insert_ne by done.
    unfold vm_attach_volume. cbv zeta.
    destruct (attach_volume (instance_id_of l) (volume_id_of l)
                (link_attributes l !! "occi.storagelink.deviceid")
                (nova_ctx extras) (nova w)) as [[device_name|ex] p]
      eqn:Hattach.
    + step. reflexivity.
    + erewrite bind_Raise by (apply glue_run; exact Hattach). reflexivity.
  - destruct ex; reflexivity.
Qed.

(** Every run of the link's delete. *)
Lemma link_delete_unfold extras l w :
  StorageLinkBackend.delete extras l w
  = match attributes (source l) !! "occi.core.id" with
    | None => (Raise (KeyError "occi.core.id"), l, w)
    | Some instance_id =>
      match attributes (target l) !! "occi.core.id" with
      | None => (Raise (KeyError "occi.core.id"), l, w)
      | Some volume_id =>
        let c1 := get_storage_call volume_id (nova_ctx extras) in
        match get_storage volume_id (nova_ctx extras) (nova w) with
        | (Raise ex, p1) => (Raise ex, l, logged c1 p1 w)
        | (Ok volume, p1) =>
          let '(r, p2) :=
            detach_volume instance_id volume (nova_ctx extras) p1 in
          (r, l,
           logged (detach_volume_call instance_id volume (nova_ctx extras))
             p2 (logged c1 p1 w))
        end
      end
    end.
Proof.
  unfold StorageLinkBackend.delete. step.
  destruct (attributes (source l) !! "occi.core.id") as [instance_id|]
    eqn:Hsrc.
  - step.
    destruct (attributes (target l) !! "occi.core.id") as [volume_id|]
      eqn:Htgt.
    + step. unfold storage_get_storage. cbv zeta.
      destruct (get_storage volume_id (nova_ctx extras) (nova w))
        as [[volume|ex] p1] eqn:Hget.
      * step. reflexivity.
      * erewrite bind_Raise by (apply glue_run; exact Hget). reflexivity.
    + erewrite bind_Raise by (now apply getitem_None). reflexivity.
  - erewrite bind_Raise by (now apply getitem_None). reflexivity.
Qed.

End ClosedForms.

(** ** StorageBackend.create: failures, frame and success *)

Section CreateMore.
Context {P : Type} `{NovaGlue P} `{Builtins}.
Variable STORAGE : Kind.
Implicit Types (e : Entity) (w : World P) (extras : Extras).


(** X2. A create that returns has found the size, got an answer to the
    create-volume call and to the fetch of the new volume, and the fetched
    status was not the error state. The log has grown by these two calls,
    and the entity carries the volume's id, the identifier made from it and
    the four actions. *)
Theorem create_success_shape extras e w e' w' :
  StorageBackend.create STORAGE extras e w = (Ok tt, e', w') ->
  ∃ sz v p1 v' p2,
    attributes e !! "occi.storage.size" = Some sz
    ∧ create_storage sz (volume_name e w) (nova_ctx extras) (nova w)
      = (Ok v, p1)
    ∧ get_storage (vol_id v) (nova_ctx extras) p1 = (Ok v', p2)
    ∧ vol_status v' ≠ "error"
    ∧ nova w' = p2
    ∧ trace w'
      = (trace w
         ++ [create_storage_call sz (volume_name e w) (nova_ctx extras);
             get_storage_call (vol_id v) (nova_ctx extras)])%list
    ∧ attributes e' !! "occi.core.id" = Some (vol_id v)
    ∧ identifier e' = location STORAGE +:+ vol_id v
    ∧ actions e' = [OFFLINE; BACKUP; SNAPSHOT; RESIZE].
Proof.
  rewrite create_unfold. intros Hrun.
  destruct (attributes e !! "occi.storage.size") as [sz|] eqn:Hsize;
    [| discriminate].
  cbv zeta in Hrun.
  destruct (create_storage sz (volume_name e w) (nova_ctx extras) (nova w))
    as [[v|?] p1] eqn:Hcreate; [| discriminate].
  destruct (get_storage (vol_id v) (nova_ctx extras) p1)
    as [[v'|?] p2] eqn:Hget; [| discriminate].
  destruct (decide (vol_status v' = "error")) as [|Herr]; [discriminate |].
  injection Hrun as <- <-.
  exists sz, v, p1, v', p2.
  split_and!; try done.
  - cbn. now rewrite <- (assoc_L app).
  - unfold created. cbn. case_decide.
    + rewrite lookup_insert_ne by done. apply lookup_insert_eq.
    + apply lookup_insert_eq.
Qed.

(** X4. When the create-volume call fails, create raises that failure as
    it is; the new volume is not fetched and the entity is untouched. *)
Theorem create_platform_failure extras e w sz ex p1 :
  attributes e !! "occi.storage.size" = Some sz ->
  create_storage sz (volume_name e w) (nova_ctx extras) (nova w)
  = (Raise ex, p1) ->
  StorageBackend.create STORAGE extras e w
  = (Raise ex, e,
     logged (create_storage_call sz (volume_name e w) (nova_ctx extras))
       p1 w).
Proof.
  intros Hsize Hcreate. rewrite create_unfold, Hsize. cbv zeta.
  now rewrite Hcreate.
Qed.

(** X5. When the fetch of the new volume fails, create raises that failure
    as it is. The volume stays on the platform: the log ends with the
    fetch, no call undoes the creation, and the entity does not get the id
    of the volume. *)
Theorem create_fetch_failure extras e w sz v p1 ex p2 :
  attributes e !! "occi.storage.size" = Some sz ->
  create_storage sz (volume_name e w) (nova_ctx extras) (nova w)
  = (Ok v, p1) ->
  get_storage (vol_id v) (nova_ctx extras) p1 = (Raise ex, p2) ->
  StorageBackend.create STORAGE extras e w
  = (Raise ex, e,
     logged (get_storage_call (vol_id v) (nova_ctx extras)) p2
       (logged (create_storage_call sz (volume_name e w) (nova_ctx extras))
          p1 w)).
Proof.
  intros Hsize Hcreate Hget. rewrite create_unfold, Hsize. cbv zeta.
  now rewrite Hcreate, Hget.
Qed.

(** X6. Whatever happens, create changes no attribute other than
    [occi.core.id] and [occi.storage.state]; the size and the title it was
    given stay as they were. *)
Theorem create_frame extras e w k :
  k ≠ "occi.core.id" ->
  k ≠ "occi.storage.state" ->
  attributes (StorageBackend.create STORAGE extras e w).1.2 !! k
  = attributes e !! k.
Proof.
  intros Hid Hstate. rewrite create_unfold. cbv zeta.
  repeat case_match; try reflexivity.
  unfold created. cbn.
  destruct (decide (vol_status _ = "available")).
  - now rewrite !lookup_insert_ne.
  - now rewrite lookup_insert_ne.
Qed.

End CreateMore.

(** ** StorageBackend.retrieve: failures and what it writes *)

Section RetrieveMore.
Context {P : Type} `{NovaGlue P} `{Builtins}.
Implicit Types (e : Entity) (w : World P) (extras : Extras).

(** X7. A retrieve on an entity without [occi.core.id] raises the key
    error; the platform is not called and the entity is untouched. *)
Theorem retrieve_without_id extras e w :
  attributes e !! "occi.core.id" = None ->
  StorageBackend.retrieve extras e w
  = (Raise (KeyError "occi.core.id"), e, w).
Proof. intros Hid. now rewrite retrieve_unfold, Hid. Qed.

(** X8. A retrieve that gets the volume sets the title to the volume's
    display name and the size to the text of the volume's size, keeps the
    identifier, and changes no attribute other than title, size and
    state. *)
Theorem retrieve_title_size extras e w v_id volume p sz :
  attributes e !! "occi.core.id" = Some v_id ->
  get_storage v_id (nova_ctx extras) (nova w) = (Ok volume, p) ->
  str_float (vol_size volume) = Ok sz ->
  attributes (StorageBackend.retrieve extras e w).1.2 !! "occi.core.title"
  = Some (vol_display_name volume)
  ∧ attributes (StorageBackend.retrieve extras e w).1.2
      !! "occi.storage.size" = Some sz
  ∧ identifier (StorageBackend.retrieve extras e w).1.2 = identifier e
  ∧ ∀ k, k ≠ "occi.core.title" -> k ≠ "occi.storage.size" ->
         k ≠ "occi.storage.state" ->
         attributes (StorageBackend.retrieve extras e w).1.2 !! k
         = attributes e !! k.
Proof.
  intros Hid Hget Hsz. rewrite retrieve_unfold, Hid. cbv zeta.
  rewrite Hget, Hsz. unfold retrieved. cbn.
  split; [| split; [| split]].
  - rewrite !lookup_insert_ne by done. apply lookup_insert_eq.
  - rewrite lookup_insert_ne by done. apply lookup_insert_eq.
  - reflexivity.
  - intros k Ht Hs Hst. now rewrite !lookup_insert_ne.
Qed.

(** X9. When the fetch fails, retrieve raises that failure as it is and
    the entity is untouched. *)
Theorem retrieve_fetch_failure extras e w v_id ex p :
  attributes e !! "occi.core.id" = Some v_id ->
  get_storage v_id (nova_ctx extras) (nova w) = (Raise ex, p) ->
  StorageBackend.retrieve extras e w
  = (Raise ex, e, logged (get_storage_call v_id (nova_ctx extras)) p w).
Proof.
  intros Hid Hget. rewrite retrieve_unfold, Hid. cbv zeta. now rewrite Hget.
Qed.

(** X10. When the size of the fetched volume cannot be turned into the
    text of a float, retrieve raises that failure after it has already
    overwritten the title: the entity keeps the new title, and its size,
    state and actions are the old ones. *)
Theorem retrieve_format_failure extras e w v_id volume p ex :
  attributes e !! "occi.core.id" = Some v_id ->
  get_storage v_id (nova_ctx extras) (nova w) = (Ok volume, p) ->
  str_float (vol_size volume) = Raise ex ->
  StorageBackend.retrieve extras e w
  = (Raise ex,
     {| attributes :=
          <["occi.core.title" := vol_display_name volume]> (attributes e);
        identifier := identifier e; actions := actions e |},
     logged (get_storage_call v_id (nova_ctx extras)) p w).
Proof.
  intros Hid Hget Hsz. rewrite retrieve_unfold, Hid. cbv zeta.
  now rewrite Hget, Hsz.
Qed.

End RetrieveMore.

(** ** StorageBackend.update, delete and action *)

Section StorageMore.
Context {P : Type} `{NovaGlue P} `{Builtins}.
Implicit Types (e old new : Entity) (w : World P) (extras : Extras).

(** X14. Whatever happens, update leaves the world as it is, so it never
    calls the platform; on the old entity it keeps the identifier, the
    actions and every attribute other than title and summary. *)
Theorem update_frame extras new old w :
  (StorageBackend.update new extras old w).2 = w
  ∧ identifier (StorageBackend.update new extras old w).1.2 = identifier old
  ∧ actions (StorageBackend.update new extras old w).1.2 = actions old
  ∧ ∀ k, k ≠ "occi.core.title" -> k ≠ "occi.core.summary" ->
         attributes (StorageBackend.update new extras old w).1.2 !! k
         = attributes old !! k.
Proof.
  rewrite update_unfold. cbv zeta.
  destruct (attributes new !! "occi.core.title") as [title|];
    [| by split_and!].
  destruct (attributes new !! "occi.core.summary") as [summary|];
    [destruct (bool_decide (0 < String.length summary)) |];
    destruct (bool_decide (0 < String.length title));
    (split_and!; [reflexivity .. |]); intros k Ht Hs; cbn;
    now rewrite ?lookup_insert_ne.
Qed.

(** X15. An update whose new entity has no title changes nothing and
    returns normally, whatever else the new entity carries: a new summary
    without a title is dropped. *)
Theorem update_without_title extras new old w :
  attributes new !! "occi.core.title" = None ->
  StorageBackend.update new extras old w = (Ok tt, old, w).
Proof. intros Htitle. now rewrite update_unfold, Htitle. Qed.

(** X16. An update whose new entity has a title and a summary of at least
    one character each overwrites both and returns normally. *)
Theorem update_title_and_summary extras new old w title summary :
  attributes new !! "occi.core.title" = Some title ->
  attributes new !! "occi.core.summary" = Some summary ->
  0 < String.length title ->
  0 < String.length summary ->
  StorageBackend.update new extras old w
  = (Ok tt,
     {| attributes :=
          <["occi.core.summary" := summary]>
            (<["occi.core.title" := title]> (attributes old));
        identifier := identifier old; actions := actions old |},
     w).
Proof.
  intros Htitle Hsummary Ht Hs. rewrite update_unfold, Htitle, Hsummary.
  cbv zeta. now rewrite !bool_decide_eq_true_2.
Qed.

(** X17. An update that returns normally is idempotent: applying the same
    new entity once more changes nothing. *)
Theorem update_idempotent extras new old w old' w' :
  StorageBackend.update new extras old w = (Ok tt, old', w') ->
  StorageBackend.update new extras old' w' = (Ok tt, old', w').
Proof.
  rewrite !update_unfold. cbv zeta. intros Hrun.
  destruct (attributes new !! "occi.core.title") as [title|];
    [| by simplify_eq].
  destruct (attributes new !! "occi.core.summary") as [summary|];
    [| discriminate].
  injection Hrun as <- <-. do 2 f_equal.
  destruct old as [a i acts].
  destruct (bool_decide (0 < String.length summary));
    destruct (bool_decide (0 < String.length title));
    unfold set_attribute; cbn; f_equal; try reflexivity.
  - apply map_eq. intros k.
    destruct (decide (k = "occi.core.summary")) as [->|Hs].
    + now rewrite !lookup_insert_eq.
    + rewrite !(lookup_insert_ne _ "occi.core.summary") by done.
      destruct (decide (k = "occi.core.title")) as [->|Ht].
      * now rewrite !lookup_insert_eq.
      * now rewrite !lookup_insert_ne by done.
  - apply insert_insert_eq.
  - apply insert_insert_eq.
Qed.

(** X18. Update never writes an empty string: an attribute that is empty
    after the update was already empty before it. *)
Theorem update_no_empty_values extras new old w k :
  attributes (StorageBackend.update new extras old w).1.2 !! k = Some "" ->
  attributes old !! k = Some "".
Proof.
  rewrite update_unfold. cbv zeta.
  destruct (attributes new !! "occi.core.title") as [title|];
    [| done].
  assert (∀ (key v : string) a,
            (if bool_decide (0 < String.length v)
             then set_attribute key v a else a) = a
            ∨ (0 < String.length v
               ∧ (if bool_decide (0 < String.length v)
                  then set_attribute key v a else a)
                 = set_attribute key v a)) as Hstep.
  { intros key v a. case_bool_decide; auto. }
  assert (∀ (key v : string) a,
            attributes
              (if bool_decide (0 < String.length v)
               then set_attribute key v a else a) !! k = Some "" ->
            attributes a !! k = Some "") as Hkeep.
  { intros key v a. destruct (Hstep key v a) as [->|[Hlen ->]]; [done |].
    cbn. destruct (decide (key = k)) as [->|Hk].
    - rewrite lookup_insert_eq. intros [= ->]. cbn in Hlen. lia.
    - now rewrite lookup_insert_ne. }
  destruct (attributes new !! "occi.core.summary") as [summary|]; cbn.
  - intros Hk. eapply Hkeep, Hkeep, Hk.
  - apply Hkeep.
Qed.

(** X19. A delete on an entity without [occi.core.id] raises the key error
    and makes no call. *)
Theorem delete_without_id extras e w :
  attributes e !! "occi.core.id" = None ->
  StorageBackend.delete extras e w = (Raise (KeyError "occi.core.id"), e, w).
Proof. intros Hid. now rewrite delete_unfold, Hid. Qed.

(** X20. A delete on an entity with [occi.core.id] makes one call, the
    delete of that volume, returns what the platform answers and leaves
    the entity, its id included, as it was. *)
Theorem delete_with_id extras e w volume_id :
  attributes e !! "occi.core.id" = Some volume_id ->
  (StorageBackend.delete extras e w).1
  = ((delete_storage_instance volume_id (nova_ctx extras) (nova w)).1, e)
  ∧ trace (StorageBackend.delete extras e w).2
    = (trace w
       ++ [delete_storage_instance_call volume_id (nova_ctx extras)])%list.
Proof.
  intros Hid. rewrite delete_unfold, Hid.
  now destruct (delete_storage_instance volume_id (nova_ctx extras) (nova w)).
Qed.

(** X21. Whatever happens, action leaves the entity as it was, and the
    only call it may make is one snapshot call for the entity's own
    volume. *)
Theorem action_frame extras e w act attrs :
  (StorageBackend.action act attrs extras e w).1.2 = e
  ∧ (trace (StorageBackend.action act attrs extras e w).2 = trace w
     ∨ ∃ volume_id name description,
         attributes e !! "occi.core.id" = Some volume_id
         ∧ trace (StorageBackend.action act attrs extras e w).2
           = (trace w
              ++ [snapshot_storage_instance_call volume_id name description
                    (nova_ctx extras)])%list).
Proof.
  rewrite action_unfold. cbv zeta.
  destruct (decide (act ∈ actions e)); [| by auto].
  destruct (decide (act = SNAPSHOT)); [| by auto].
  destruct (attributes e !! "occi.core.id") as [volume_id|]; [| by auto].
  destruct (snapshot_storage_instance _ _ _ _ _) as [r p].
  split; [reflexivity |]. right. by eexists _, _, _.
Qed.

(** X22. Every allowed action other than snapshot does nothing: it
    returns normally and the entity and the world are as they were. *)
Theorem action_noop extras e w act attrs :
  act ∈ actions e ->
  act ≠ SNAPSHOT ->
  StorageBackend.action act attrs extras e w = (Ok tt, e, w).
Proof.
  intros Hin Hact. rewrite action_unfold.
  now rewrite decide_True, decide_False.
Qed.

(** X23. The snapshot action on an entity that allows it and has no
    [occi.core.id] raises the key error and makes no call. *)
Theorem action_snapshot_without_id extras e w attrs :
  SNAPSHOT ∈ actions e ->
  attributes e !! "occi.core.id" = None ->
  StorageBackend.action SNAPSHOT attrs extras e w
  = (Raise (KeyError "occi.core.id"), e, w).
Proof.
  intros Hin Hid. rewrite action_unfold.
  rewrite decide_True, decide_True by done. now rewrite Hid.
Qed.

End StorageMore.

(** ** The handlers of a storage resource, one after the other *)

Section Compositions.
Context {P : Type} `{NovaGlue P} `{Builtins}.
Variable STORAGE : Kind.
Implicit Types (e : Entity) (w : World P) (extras : Extras).

Lemma created_id vid st e :
  attributes (created STORAGE vid st e) !! "occi.core.id" = Some vid.
Proof.
  unfold created. cbn. case_decide.
  - rewrite lookup_insert_ne by done. apply lookup_insert_eq.
  - apply lookup_insert_eq.
Qed.


(** What a successful create returns, given the answer to its first
    call. *)
Lemma create_Ok_inv extras e w e' w' sz v p1 :
  attributes e !! "occi.storage.size" = Some sz ->
  create_storage sz (volume_name e w) (nova_ctx extras) (nova w)
  = (Ok v, p1) ->
  StorageBackend.create STORAGE extras e w = (Ok tt, e', w') ->
  ∃ st, e' = created STORAGE (vol_id v) st e.
Proof.
  intros Hsize Hcreate. rewrite create_unfold, Hsize. cbv zeta.
  rewrite Hcreate. intros Hrun.
  repeat case_match; simplify_eq. eauto.
Qed.

(** X11. The entity a successful create leaves addresses the volume that
    was created: a retrieve on it makes exactly one call, the fetch of
    that volume, and a delete on it makes exactly one call, the delete of
    that volume. *)
Theorem create_then_retrieve_delete extras e w e' w' sz v p1 :
  attributes e !! "occi.storage.size" = Some sz ->
  create_storage sz (volume_name e w) (nova_ctx extras) (nova w)
  = (Ok v, p1) ->
  StorageBackend.create STORAGE extras e w = (Ok tt, e', w') ->
  trace (StorageBackend.retrieve extras e' w').2
  = (trace w' ++ [get_storage_call (vol_id v) (nova_ctx extras)])%list
  ∧ trace (StorageBackend.delete extras e' w').2
    = (trace w'
       ++ [delete_storage_instance_call (vol_id v) (nova_ctx extras)])%list.
Proof.
  intros Hsize Hcreate Hrun.
  destruct (create_Ok_inv _ _ _ _ _ _ _ _ Hsize Hcreate Hrun) as [st ->].
  rewrite retrieve_unfold, delete_unfold, created_id. cbv zeta. split.
  - repeat case_match; reflexivity.
  - now destruct (delete_storage_instance _ _ _).
Qed.


(** X13. On the entity left by a retrieve that found the volume in a
    status other than available and in-use, every action but online is
    refused, and online is accepted and does nothing. *)
Theorem retrieve_offline_then_action extras e w v_id volume p sz :
  attributes e !! "occi.core.id" = Some v_id ->
  get_storage v_id (nova_ctx extras) (nova w) = (Ok volume, p) ->
  str_float (vol_size volume) = Ok sz ->
  ¬ (vol_status volume = "available" ∨ vol_status volume = "in-use") ->
  (∀ act attrs w2,
      act ≠ ONLINE ->
      StorageBackend.action act attrs extras
        (StorageBackend.retrieve extras e w).1.2 w2
      = (Raise (AttributeError "This action is currently no applicable."),
         (StorageBackend.retrieve extras e w).1.2, w2))
  ∧ (∀ attrs w2,
        StorageBackend.action ONLINE attrs extras
          (StorageBackend.retrieve extras e w).1.2 w2
        = (Ok tt, (StorageBackend.retrieve extras e w).1.2, w2)).
Proof.
  intros Hid Hget Hsz Hst. rewrite retrieve_unfold, Hid. cbv zeta.
  rewrite Hget, Hsz. cbn [fst snd]. split.
  - intros act attrs w2 Hact. rewrite action_unfold.
    rewrite decide_False; [reflexivity |].
    unfold retrieved. cbn [actions].
    rewrite (occi_projection_offline _ Hst). cbn.
    intros Hin. apply elem_of_cons in Hin as [?|Hin]; [done |].
    now apply elem_of_nil in Hin.
  - intros attrs w2. rewrite action_unfold.
    rewrite decide_True, decide_False; [reflexivity | discriminate |].
    unfold retrieved. cbn [actions].
    rewrite (occi_projection_offline _ Hst). cbn. apply elem_of_cons; now left.
Qed.

End Compositions.

(** ** StorageLinkBackend: labels, calls and failures *)

Section LinkMore.
Context {P : Type} `{NovaGlue P}.
Variable STORAGELINK : Kind.
Implicit Types (l : Link) (w : World P) (extras : Extras).

Lemma labelled_attributes l :
  link_attributes (labelled STORAGELINK l)
  = <["occi.storagelink.state" := "active"]>
      (<["occi.core.id" := instance_id_of l +:+ "_" +:+ volume_id_of l]>
         (link_attributes l)).
Proof. reflexivity. Qed.

(** The link create leaves is the labelled link, with or without a new
    device id. *)
Lemma link_create_result extras l w :
  (StorageLinkBackend.create STORAGELINK extras l w).1.2
  = labelled STORAGELINK l
  ∨ ∃ device_name,
      (StorageLinkBackend.create STORAGELINK extras l w).1.2
      = set_link_attribute "occi.storagelink.deviceid" device_name
          (labelled STORAGELINK l).
Proof.
  rewrite link_create_unfold. cbv zeta.
  repeat case_match; cbn [fst snd]; eauto.
Qed.

(** X24. Whatever happens next, the link's create gives the link the id
    made of the instance id, an underscore and the volume id (each the
    empty string when its end of the link has no id), the identifier made
    from that id and the state active. It keeps the two ends of the link
    and every attribute other than id, state and device id. *)
Theorem link_create_labels extras l w :
  link_attributes (StorageLinkBackend.create STORAGELINK extras l w).1.2
    !! "occi.core.id"
  = Some (default "" (attributes (source l) !! "occi.core.id") +:+ "_"
          +:+ default "" (attributes (target l) !! "occi.core.id"))
  ∧ link_attributes (StorageLinkBackend.create STORAGELINK extras l w).1.2
      !! "occi.storagelink.state" = Some "active"
  ∧ link_identifier (StorageLinkBackend.create STORAGELINK extras l w).1.2
    = location STORAGELINK
      +:+ default "" (attributes (source l) !! "occi.core.id") +:+ "_"
      +:+ default "" (attributes (target l) !! "occi.core.id")
  ∧ source (StorageLinkBackend.create STORAGELINK extras l w).1.2 = source l
  ∧ target (StorageLinkBackend.create STORAGELINK extras l w).1.2 = target l
  ∧ ∀ k, k ≠ "occi.core.id" -> k ≠ "occi.storagelink.state" ->
         k ≠ "occi.storagelink.deviceid" ->
         link_attributes
           (StorageLinkBackend.create STORAGELINK extras l w).1.2 !! k
         = link_attributes l !! k.
Proof.
  fold (instance_id_of l). fold (volume_id_of l).
  destruct (link_create_result extras l w) as [->|[device_name ->]].
  - rewrite labelled_attributes. split_and!; try reflexivity.
    + rewrite lookup_insert_ne by done. apply lookup_insert_eq.
    + apply lookup_insert_eq.
    + intros k ? ? ?. now rewrite !lookup_insert_ne.
  - cbn [link_attributes set_link_attribute]. rewrite labelled_attributes.
    split_and!; try reflexivity.
    + rewrite !lookup_insert_ne by done. apply lookup_insert_eq.
    + rewrite lookup_insert_ne by done. apply lookup_insert_eq.
    + intros k ? ? ?. now rewrite !lookup_insert_ne.
Qed.

(** X25. The link's create makes no call, or exactly one: the attach call,
    with the two ids read off the ends of the link and the device id the
    link asked for. *)
Theorem link_create_calls extras l w :
  trace (StorageLinkBackend.create STORAGELINK extras l w).2 = trace w
  ∨ trace (StorageLinkBackend.create STORAGELINK extras l w).2
    = (trace w
       ++ [attach_volume_call
             (default "" (attributes (source l) !! "occi.core.id"))
             (default "" (attributes (target l) !! "occi.core.id"))
             (link_attributes l !! "occi.storagelink.deviceid")
             (nova_ctx extras)])%list.
Proof.
  rewrite link_create_unfold. cbv zeta.
  repeat case_match; cbn [fst snd]; auto.
Qed.

(** X26. When the registry fails with something other than the key error,
    the link's create raises that failure as it is and makes no call. *)
Theorem link_create_registry_failure extras l w ex :
  get_resource (registry extras)
    ("/compute/" +:+ default "" (attributes (source l) !! "occi.core.id"))
    (nova_ctx extras) = Raise ex ->
  (∀ key, ex ≠ KeyError key) ->
  (StorageLinkBackend.create STORAGELINK extras l w).1.1 = Raise ex
  ∧ (StorageLinkBackend.create STORAGELINK extras l w).2 = w.
Proof.
  intros Hreg Hex. rewrite link_create_unfold.
  unfold instance_id_of. rewrite Hreg.
  destruct ex; try (by split). now destruct (Hex key).
Qed.

(** X27. When the attach call fails, the link's create raises that failure
    as it is; the attach call is the one call made, and the link's device
    id is the one it asked for, if any. *)
Theorem link_create_attach_failure extras l w ex p :
  get_resource (registry extras)
    ("/compute/" +:+ default "" (attributes (source l) !! "occi.core.id"))
    (nova_ctx extras) = Ok tt ->
  attach_volume
    (default "" (attributes (source l) !! "occi.core.id"))
    (default "" (attributes (target l) !! "occi.core.id"))
    (link_attributes l !! "occi.storagelink.deviceid")
    (nova_ctx extras) (nova w) = (Raise ex, p) ->
  (StorageLinkBackend.create STORAGELINK extras l w).1.1 = Raise ex
  ∧ link_attributes (StorageLinkBackend.create STORAGELINK extras l w).1.2
      !! "occi.storagelink.deviceid"
    = link_attributes l !! "occi.storagelink.deviceid"
  ∧ trace (StorageLinkBackend.create STORAGELINK extras l w).2
    = (trace w
       ++ [attach_volume_call
             (default "" (attributes (source l) !! "occi.core.id"))
             (default "" (attributes (target l) !! "occi.core.id"))
             (link_attributes l !! "occi.storagelink.deviceid")
             (nova_ctx extras)])%list.
Proof.
  intros Hreg Hattach. rewrite link_create_unfold.
  unfold instance_id_of, volume_id_of. rewrite Hreg. cbv zeta.
  rewrite Hattach. cbn [fst snd]. split_and!; try reflexivity.
  rewrite labelled_attributes. now rewrite !lookup_insert_ne.
Qed.

(** X28. A link's delete on a link one of whose ends has no
    [occi.core.id] raises the key error and makes no call. *)
Theorem link_delete_missing_id extras l w :
  attributes (source l) !! "occi.core.id" = None
  ∨ attributes (target l) !! "occi.core.id" = None ->
  StorageLinkBackend.delete extras l w
  = (Raise (KeyError "occi.core.id"), l, w).
Proof.
  intros [Hsrc|Htgt]; rewrite link_delete_unfold.
  - now rewrite Hsrc.
  - rewrite Htgt. now destruct (attributes (source l) !! "occi.core.id").
Qed.

(** X29. A link's delete on a link whose ends have their ids, when the
    platform returns the volume, makes two calls: the fetch of the volume,
    then the detach of that fetched volume from the instance. It returns
    what the detach answers and leaves the link as it was. *)
Theorem link_delete_calls extras l w instance_id volume_id volume p1 :
  attributes (source l) !! "occi.core.id" = Some instance_id ->
  attributes (target l) !! "occi.core.id" = Some volume_id ->
  get_storage volume_id (nova_ctx extras) (nova w) = (Ok volume, p1) ->
  (StorageLinkBackend.delete extras l w).1
  = ((detach_volume instance_id volume (nova_ctx extras) p1).1, l)
  ∧ trace (StorageLinkBackend.delete extras l w).2
    = (trace w
       ++ [get_storage_call volume_id (nova_ctx extras);
           detach_volume_call instance_id volume (nova_ctx extras)])%list.
Proof.
  intros Hsrc Htgt Hget. rewrite link_delete_unfold, Hsrc, Htgt. cbv zeta.
  rewrite Hget. destruct (detach_volume _ _ _ _). cbn.
  now rewrite <- (assoc_L app).
Qed.

(** X30. A delete after a create that attached the volume undoes that
    attachment: over the two handlers the calls are the attach of the
    volume to the instance, the fetch of the volume and the detach of the
    fetched volume from the same instance. *)
Theorem link_create_then_delete
  extras l w instance_id volume_id device_name p volume p1 :
  attributes (source l) !! "occi.core.id" = Some instance_id ->
  attributes (target l) !! "occi.core.id" = Some volume_id ->
  get_resource (registry extras) ("/compute/" +:+ instance_id)
    (nova_ctx extras) = Ok tt ->
  attach_volume instance_id volume_id
    (link_attributes l !! "occi.storagelink.deviceid")
    (nova_ctx extras) (nova w) = (Ok device_name, p) ->
  get_storage volume_id (nova_ctx extras) p = (Ok volume, p1) ->
  trace
    (StorageLinkBackend.delete extras
       (StorageLinkBackend.create STORAGELINK extras l w).1.2
       (StorageLinkBackend.create STORAGELINK extras l w).2).2
  = (trace w
     ++ [attach_volume_call instance_id volume_id
           (link_attributes l !! "occi.storagelink.deviceid")
           (nova_ctx extras);
         get_storage_call volume_id (nova_ctx extras);
         detach_volume_call instance_id volume (nova_ctx extras)])%list.
Proof.
  intros Hsrc Htgt Hreg Hattach Hget. rewrite link_create_unfold.
  unfold instance_id_of, volume_id_of. rewrite Hsrc, Htgt.
  cbn [default from_option id]. rewrite Hreg. cbv zeta.
  rewrite Hattach. cbn [fst snd]. rewrite link_delete_unfold.
  cbn [source target set_link_attribute labelled set_link_identifier].
  rewrite Hsrc, Htgt. cbv zeta. cbn [nova logged]. rewrite Hget.
  destruct (detach_volume _ _ _ _). cbn.
  now rewrite <- !(assoc_L app).
Qed.

End LinkMore.

(** * More runs on the two platforms *)


Lemma create_success_shape_witness :
  Demo.create_pending.1.1 = Ok tt
  ∧ actions Demo.create_pending.1.2 = [OFFLINE; BACKUP; SNAPSHOT; RESIZE].
Proof.
  split; [vm_compute; reflexivity |].
  destruct (create_success_shape Demo.STORAGE (Demo.extras []) Demo.sized
              (Demo.world "creating") Demo.create_pending.1.2
              Demo.create_pending.2)
    as (sz & v & p1 & v' & p2 & _ & _ & _ & _ & _ & _ & _ & _ & Hactions).
  - vm_compute. reflexivity.
  - exact Hactions.
Defined.

Lemma create_available_status_witness :
  attributes Demo.sized !! "occi.storage.size" = Some "1"
  ∧ Demo.create_available.1.1 = Ok tt
  ∧ attributes Demo.create_available.1.2 !! "occi.storage.state"
    = Some "active".
Proof.
  split; [reflexivity |].
  unfold Demo.create_available.
  rewrite (create_available_status Demo.STORAGE (Demo.extras []) Demo.sized
             (Demo.world "available") "1"
             (Demo.new_volume Demo.fresh "creating" (Demo.cloud0 "available"))
             (Demo.add_volume
                (Demo.new_volume Demo.fresh "available"
                   (Demo.cloud0 "available"))
                (Demo.cloud0 "available"))
             (Demo.new_volume Demo.fresh "available" (Demo.cloud0 "available"))
             (Demo.add_volume
                (Demo.new_volume Demo.fresh "available"
                   (Demo.cloud0 "available"))
                (Demo.cloud0 "available")))
    by (vm_compute; reflexivity).
  split; [reflexivity | vm_compute; reflexivity].
Defined.

Lemma create_platform_failure_witness :
  StorageBackend.create Demo.STORAGE (Demo.extras []) Demo.sized
    (Flaky.world 0)
  = (Raise (GlueError "service unavailable"), Demo.sized,
     logged
       (create_storage_call "1" (volume_name Demo.sized (Flaky.world 0))
          (nova_ctx (Demo.extras [])))
       0 (Flaky.world 0)).
Proof.
  apply (create_platform_failure Demo.STORAGE (Demo.extras []) Demo.sized
           (Flaky.world 0) "1" (GlueError "service unavailable") 0);
    vm_compute; reflexivity.
Defined.

Lemma create_fetch_failure_witness :
  (StorageBackend.create Demo.STORAGE (Demo.extras []) Demo.sized
     (Flaky.world 1)).1
  = (Raise (GlueError "service unavailable"), Demo.sized)
  ∧ trace
      (StorageBackend.create Demo.STORAGE (Demo.extras []) Demo.sized
         (Flaky.world 1)).2
    = [create_storage_call "1" Demo.fresh "tenant";
       get_storage_call "vol-9" "tenant"].
Proof.
  rewrite (create_fetch_failure Demo.STORAGE (Demo.extras []) Demo.sized
             (Flaky.world 1) "1"
             {| vol_id := "vol-9"; vol_display_name := Demo.fresh;
                vol_size := 1; vol_status := "creating" |}
             0 (GlueError "service unavailable") 0)
    by (vm_compute; reflexivity).
  split; vm_compute; reflexivity.
Defined.

Lemma create_frame_witness :
  attributes Demo.create_pending.1.2 !! "occi.storage.size"
  = attributes Demo.sized !! "occi.storage.size".
Proof.
  apply (create_frame Demo.STORAGE (Demo.extras []) Demo.sized
           (Demo.world "creating") "occi.storage.size"); discriminate.
Defined.

Lemma retrieve_without_id_witness :
  StorageBackend.retrieve (Demo.extras []) Demo.sized
    (Demo.holding Demo.in_use)
  = (Raise (KeyError "occi.core.id"), Demo.sized, Demo.holding Demo.in_use).
Proof.
  apply (retrieve_without_id (Demo.extras []) Demo.sized
           (Demo.holding Demo.in_use)).
  reflexivity.
Defined.

Lemma retrieve_title_size_witness :
  attributes
    (StorageBackend.retrieve (Demo.extras []) Demo.stored
       (Demo.holding Demo.in_use)).1.2 !! "occi.core.title" = Some "data"
  ∧ attributes
      (StorageBackend.retrieve (Demo.extras []) Demo.stored
         (Demo.holding Demo.in_use)).1.2 !! "occi.storage.size"
    = Some "20.0".
Proof.
  destruct (retrieve_title_size (Demo.extras []) Demo.stored
              (Demo.holding Demo.in_use) "vol-1" Demo.in_use
              (nova (Demo.holding Demo.in_use)) "20.0")
    as (Htitle & Hsize & _); [vm_compute; reflexivity .. |].
  split; [exact Htitle | exact Hsize].
Defined.

Lemma retrieve_fetch_failure_witness :
  StorageBackend.retrieve (Demo.extras []) Demo.stored
    (Demo.world "available")
  = (Raise (GlueError "volume not found"), Demo.stored,
     logged (get_storage_call "vol-1" (nova_ctx (Demo.extras [])))
       (Demo.cloud0 "available") (Demo.world "available")).
Proof.
  apply (retrieve_fetch_failure (Demo.extras []) Demo.stored
           (Demo.world "available") "vol-1"
           (GlueError "volume not found") (Demo.cloud0 "available"));
    vm_compute; reflexivity.
Defined.

Lemma retrieve_format_failure_witness :
  str_float (vol_size Demo.huge)
  = Raise (GlueError "size out of the range of this platform")
  ∧ (StorageBackend.retrieve (Demo.extras []) Demo.stored
       (Demo.holding Demo.huge)).1
    = (Raise (GlueError "size out of the range of this platform"),
       {| attributes :=
            <["occi.core.title" := vol_display_name Demo.huge]>
              (attributes Demo.stored);
          identifier := identifier Demo.stored;
          actions := actions Demo.stored |}).
Proof.
  split; [vm_compute; reflexivity |].
  rewrite (retrieve_format_failure (Demo.extras []) Demo.stored
             (Demo.holding Demo.huge) "vol-1" Demo.huge
             (nova (Demo.holding Demo.huge))
             (GlueError "size out of the range of this platform"))
    by (vm_compute; reflexivity).
  reflexivity.
Defined.

Lemma create_then_retrieve_delete_witness :
  trace
    (StorageBackend.retrieve (Demo.extras []) Demo.create_pending.1.2
       Demo.create_pending.2).2
  = (trace Demo.create_pending.2
     ++ [get_storage_call "vol-1" (nova_ctx (Demo.extras []))])%list
  ∧ trace
      (StorageBackend.delete (Demo.extras []) Demo.create_pending.1.2
         Demo.create_pending.2).2
    = (trace Demo.create_pending.2
       ++ [delete_storage_instance_call "vol-1"
             (nova_ctx (Demo.extras []))])%list.
Proof.
  apply (create_then_retrieve_delete Demo.STORAGE (Demo.extras [])
           Demo.sized (Demo.world "creating") Demo.create_pending.1.2
           Demo.create_pending.2 "1"
           (Demo.new_volume Demo.fresh "creating" (Demo.cloud0 "creating"))
           (Demo.add_volume
              (Demo.new_volume Demo.fresh "creating" (Demo.cloud0 "creating"))
              (Demo.cloud0 "creating")));
    vm_compute; reflexivity.
Defined.


Lemma retrieve_offline_then_action_witness :
  StorageBackend.action SNAPSHOT Demo.no_attributes (Demo.extras [])
    (StorageBackend.retrieve (Demo.extras []) Demo.stored
       (Demo.holding Demo.pending)).1.2
    (Demo.holding Demo.pending)
  = (Raise (AttributeError "This action is currently no applicable."),
     (StorageBackend.retrieve (Demo.extras []) Demo.stored
        (Demo.holding Demo.pending)).1.2,
     Demo.holding Demo.pending).
Proof.
  destruct (retrieve_offline_then_action (Demo.extras []) Demo.stored
              (Demo.holding Demo.pending) "vol-1" Demo.pending
              (nova (Demo.holding Demo.pending)) "20.0")
    as [Hrefused _].
  - reflexivity.
  - vm_compute. reflexivity.
  - vm_compute. reflexivity.
  - intros [Hst|Hst]; discriminate Hst.
  - apply Hrefused. discriminate.
Defined.

Lemma update_without_title_witness :
  StorageBackend.update Demo.summary_only (Demo.extras []) Demo.stored
    (Demo.world "available")
  = (Ok tt, Demo.stored, Demo.world "available").
Proof.
  apply (update_without_title (Demo.extras []) Demo.summary_only Demo.stored
           (Demo.world "available")).
  reflexivity.
Defined.

Lemma update_title_and_summary_witness :
  StorageBackend.update Demo.title_and_summary (Demo.extras []) Demo.stored
    (Demo.world "available")
  = (Ok tt,
     {| attributes :=
          <["occi.core.summary" := "T"]>
            (<["occi.core.title" := "B"]> (attributes Demo.stored));
        identifier := identifier Demo.stored;
        actions := actions Demo.stored |},
     Demo.world "available").
Proof.
  apply (update_title_and_summary (Demo.extras []) Demo.title_and_summary
           Demo.stored (Demo.world "available") "B" "T");
    [reflexivity | reflexivity | cbn; lia | cbn; lia].
Defined.

Lemma update_idempotent_witness :
  StorageBackend.update Demo.title_and_summary (Demo.extras [])
    (StorageBackend.update Demo.title_and_summary (Demo.extras [])
       Demo.stored (Demo.world "available")).1.2
    (Demo.world "available")
  = (Ok tt,
     (StorageBackend.update Demo.title_and_summary (Demo.extras [])
        Demo.stored (Demo.world "available")).1.2,
     Demo.world "available").
Proof.
  apply (update_idempotent (Demo.extras []) Demo.title_and_summary
           Demo.stored (Demo.world "available")).
  vm_compute. reflexivity.
Defined.

Lemma update_no_empty_values_witness :
  attributes
    (StorageBackend.update Demo.title_empty_summary (Demo.extras [])
       (Demo.entity_of {[ "occi.core.summary" := "" ]} [])
       (Demo.world "available")).1.2 !! "occi.core.summary" = Some ""
  ∧ attributes (Demo.entity_of {[ "occi.core.summary" := "" ]} [])
      !! "occi.core.summary" = Some "".
Proof.
  assert (attributes
            (StorageBackend.update Demo.title_empty_summary (Demo.extras [])
               (Demo.entity_of {[ "occi.core.summary" := "" ]} [])
               (Demo.world "available")).1.2 !! "occi.core.summary"
          = Some "") as Hafter by (vm_compute; reflexivity).
  exact (conj Hafter
           (update_no_empty_values (Demo.extras []) Demo.title_empty_summary
              (Demo.entity_of {[ "occi.core.summary" := "" ]} [])
              (Demo.world "available") "occi.core.summary" Hafter)).
Defined.

Lemma delete_without_id_witness :
  StorageBackend.delete (Demo.extras []) Demo.sized
    (Demo.holding Demo.in_use)
  = (Raise (KeyError "occi.core.id"), Demo.sized, Demo.holding Demo.in_use).
Proof.
  apply (delete_without_id (Demo.extras []) Demo.sized
           (Demo.holding Demo.in_use)).
  reflexivity.
Defined.

Lemma delete_with_id_witness :
  trace
    (StorageBackend.delete (Demo.extras []) Demo.stored
       (Demo.holding Demo.in_use)).2
  = (trace (Demo.holding Demo.in_use)
     ++ [delete_storage_instance_call "vol-1"
           (nova_ctx (Demo.extras []))])%list.
Proof.
  apply (delete_with_id (Demo.extras []) Demo.stored
           (Demo.holding Demo.in_use) "vol-1").
  reflexivity.
Defined.

Lemma action_noop_witness :
  StorageBackend.action OFFLINE Demo.no_attributes (Demo.extras [])
    Demo.stored (Demo.holding Demo.in_use)
  = (Ok tt, Demo.stored, Demo.holding Demo.in_use).
Proof.
  apply (action_noop (Demo.extras []) Demo.stored
           (Demo.holding Demo.in_use) OFFLINE Demo.no_attributes).
  - compute_done.
  - discriminate.
Defined.

Lemma action_snapshot_without_id_witness :
  StorageBackend.action SNAPSHOT Demo.no_attributes (Demo.extras [])
    Demo.unidentified (Demo.world "available")
  = (Raise (KeyError "occi.core.id"), Demo.unidentified,
     Demo.world "available").
Proof.
  apply (action_snapshot_without_id (Demo.extras []) Demo.unidentified
           (Demo.world "available") Demo.no_attributes).
  - compute_done.
  - reflexivity.
Defined.

Lemma link_create_registry_failure_witness :
  (StorageLinkBackend.create Demo.STORAGELINK Flaky.extras_down
     Demo.link_i1_v1 (Demo.world "available")).1.1
  = Raise (GlueError "registry unavailable")
  ∧ (StorageLinkBackend.create Demo.STORAGELINK Flaky.extras_down
       Demo.link_i1_v1 (Demo.world "available")).2
    = Demo.world "available".
Proof.
  apply (link_create_registry_failure Demo.STORAGELINK Flaky.extras_down
           Demo.link_i1_v1 (Demo.world "available")
           (GlueError "registry unavailable")).
  - reflexivity.
  - intros key. discriminate.
Defined.

Lemma link_create_attach_failure_witness :
  (StorageLinkBackend.create Demo.STORAGELINK (Demo.extras ["/compute/i1"])
     Demo.link_i1_v1 (Flaky.world 0)).1.1
  = Raise (GlueError "service unavailable")
  ∧ link_attributes
      (StorageLinkBackend.create Demo.STORAGELINK
         (Demo.extras ["/compute/i1"]) Demo.link_i1_v1 (Flaky.world 0)).1.2
      !! "occi.storagelink.deviceid" = Some "/dev/vdc".
Proof.
  destruct (link_create_attach_failure Demo.STORAGELINK
              (Demo.extras ["/compute/i1"]) Demo.link_i1_v1 (Flaky.world 0)
              (GlueError "service unavailable") 0)
    as (Hraise & Hdevice & _); [vm_compute; reflexivity .. |].
  split; [exact Hraise |]. rewrite Hdevice. reflexivity.
Defined.

Lemma link_delete_missing_id_witness :
  StorageLinkBackend.delete (Demo.extras []) Demo.link_without_source
    (Demo.world "available")
  = (Raise (KeyError "occi.core.id"), Demo.link_without_source,
     Demo.world "available").
Proof.
  apply (link_delete_missing_id (Demo.extras []) Demo.link_without_source
           (Demo.world "available")).
  left. reflexivity.
Defined.

Lemma link_delete_calls_witness :
  trace
    (StorageLinkBackend.delete (Demo.extras []) Demo.link_i1_v1
       (Flaky.world 2)).2
  = [get_storage_call "v1" "tenant";
     detach_volume_call "i1"
       {| vol_id := "v1"; vol_display_name := "data"; vol_size := 1;
          vol_status := "available" |} "tenant"].
Proof.
  destruct (link_delete_calls (Demo.extras []) Demo.link_i1_v1
              (Flaky.world 2) "i1" "v1"
              {| vol_id := "v1"; vol_display_name := "data"; vol_size := 1;
                 vol_status := "available" |} 1)
    as [_ Htrace]; [reflexivity .. |].
  rewrite Htrace. reflexivity.
Defined.

Lemma link_create_then_delete_witness :
  trace
    (StorageLinkBackend.delete (Demo.extras ["/compute/i1"])
       (StorageLinkBackend.create Demo.STORAGELINK
          (Demo.extras ["/compute/i1"]) Demo.link_i1_v1 (Flaky.world 3)).1.2
       (StorageLinkBackend.create Demo.STORAGELINK
          (Demo.extras ["/compute/i1"]) Demo.link_i1_v1 (Flaky.world 3)).2).2
  = [attach_volume_call "i1" "v1" (Some "/dev/vdc") "tenant";
     get_storage_call "v1" "tenant";
     detach_volume_call "i1"
       {| vol_id := "v1"; vol_display_name := "data"; vol_size := 1;
          vol_status := "available" |} "tenant"].
Proof.
  rewrite (link_create_then_delete Demo.STORAGELINK
             (Demo.extras ["/compute/i1"]) Demo.link_i1_v1 (Flaky.world 3)
             "i1" "v1" "/dev/vdb" 2
             {| vol_id := "v1"; vol_display_name := "data"; vol_size := 1;
                vol_status := "available" |} 1)
    by (vm_compute; reflexivity).
  reflexivity.
Defined.
